(** * Hybrid retrieval handler over an Elasticsearch-like backend

    A shallow embedding of [elasticsearch_handler.py] (class
    [ElasticsearchHandler]) and of the [/search/] route of [main.py].

    The Elasticsearch client and the embedding provider are external
    collaborators.  They are modelled as records of oracles acting on an
    abstract world [W]; each oracle either returns a value or raises.  The
    Python methods are written in a state-and-exception monad that threads the
    world and records every external call, in issue order, in a trace. *)

From Stdlib Require Import String List ZArith QArith Bool Lia.
From Stdlib Require Import Sorting.Sorted Sorting.Permutation.
Import ListNotations.
Open Scope string_scope.
Open Scope Z_scope.
Open Scope list_scope.

Set Warnings "-register-all".

(** ** Values *)

(** Python values as they cross the client boundary.  Dictionaries keep
    insertion order, so they are association lists.  A Python [float] is never
    computed with by this program (it is only passed through and compared), so
    it is represented by the rational it denotes. *)
Inductive json : Type :=
| JNull
| JBool (b : bool)
| JInt (n : Z)
| JFloat (q : Q)
| JStr (s : string)
| JList (l : list json)
| JDict (d : list (string * json)).

Definition dict := list (string * json).

Fixpoint lookup (k : string) (d : dict) : option json :=
  match d with
  | [] => None
  | (k', v) :: d' => if String.eqb k k' then Some v else lookup k d'
  end.

(** [d.get(k)]: the value, or [None]. *)
Definition dict_get (k : string) (d : dict) : json :=
  match lookup k d with Some v => v | None => JNull end.

(** [d[k] = v] on a dict: replaces in place or appends at the end. *)
Fixpoint dict_set (k : string) (v : json) (d : dict) : dict :=
  match d with
  | [] => [(k, v)]
  | (k', v') :: d' =>
      if String.eqb k k' then (k, v) :: d' else (k', v') :: dict_set k v d'
  end.

(** A path of keys through nested dictionaries, [d[k1][k2]...]. *)
Fixpoint path (ks : list string) (j : json) : option json :=
  match ks with
  | [] => Some j
  | k :: ks' =>
      match j with
      | JDict d => match lookup k d with Some v => path ks' v | None => None end
      | _ => None
      end
  end.

Definition embedding := list Q.
Definition json_of_embedding (v : embedding) : json := JList (map JFloat v).

(** ** Outcomes and the handler monad *)

Inductive exn : Type :=
| Exception (msg : string)
| HTTPException (status_code : Z) (detail : string).

Definition str_of_exn (e : exn) : string :=
  match e with
  | Exception msg => msg
  | HTTPException _ detail => detail
  end.

Inductive outcome (A : Type) : Type :=
| Return (a : A)
| Raise (e : exn).
Arguments Return {A} a.
Arguments Raise {A} e.

(** [j[k]]: [KeyError] on a missing key, [TypeError] off a dict. *)
Definition getitem (k : string) (j : json) : outcome json :=
  match j with
  | JDict d =>
      match lookup k d with
      | Some v => Return v
      | None => Raise (Exception "KeyError")
      end
  | _ => Raise (Exception "TypeError")
  end.

Fixpoint map_outcome {A B} (f : A -> outcome B) (l : list A)
  : outcome (list B) :=
  match l with
  | [] => Return []
  | x :: l' =>
      match f x with
      | Raise e => Raise e
      | Return y =>
          match map_outcome f l' with
          | Raise e => Raise e
          | Return ys => Return (y :: ys)
          end
      end
  end.

(** The external calls the program can issue. *)
Inductive call : Type :=
| CPing
| CExists (index : string)
| CCreate (index : string) (settings mappings : json)
| CRefresh (index : string)
| CAnalyze (index : string) (body : json)
| CSearch (index : string) (body : json)
| CBulk (actions : list json)
| CEmbedDocuments (texts : list string)
| CEmbedQuery (text : string).

Record event : Type := Ev { ev_call : call; ev_raised : bool }.

Record state (W : Type) : Type := St { world : W; trace : list event }.
Arguments St {W} world trace.
Arguments world {W} s.
Arguments trace {W} s.

Definition M (W A : Type) : Type := state W -> outcome A * state W.

Definition ret {W A} (a : A) : M W A := fun st => (Return a, st).
Definition throw {W A} (e : exn) : M W A := fun st => (Raise e, st).

Definition bind {W A B} (m : M W A) (k : A -> M W B) : M W B :=
  fun st =>
    match m st with
    | (Return a, st') => k a st'
    | (Raise e, st') => (Raise e, st')
    end.

(** [try: m except Exception as e: h e]. *)
Definition try_except {W A} (m : M W A) (h : exn -> M W A) : M W A :=
  fun st =>
    match m st with
    | (Return a, st') => (Return a, st')
    | (Raise e, st') => h e st'
    end.

Definition is_raise {A} (o : outcome A) : bool :=
  match o with Return _ => false | Raise _ => true end.

(** An external call: run the oracle on the world and log the call together
    with whether it raised. *)
Definition ext {W A} (c : call) (f : W -> outcome A * W) : M W A :=
  fun st =>
    let (o, w') := f (world st) in
    (o, St w' (trace st ++ [Ev c (is_raise o)])).

(** A pure step that may raise (a subscript, an iteration). *)
Definition lift {W A} (o : outcome A) : M W A := fun st => (o, st).

Declare Scope py_scope.
Delimit Scope py_scope with py.
Notation "x <- m ;; k" := (bind m (fun x => k))
  (at level 100, m at next level, right associativity) : py_scope.
Notation "m ;;; k" := (bind m (fun _ => k))
  (at level 100, right associativity) : py_scope.
Open Scope py_scope.

(** ** The external interfaces *)

Record Hit : Type := mkHit {
  _id : string;
  _score : Q;
  _source : dict
}.

(** The part of a search response the program reads:
    [took], [hits.total.value] and [hits.hits]. *)
Record Response : Type := mkResponse {
  took : Z;
  total : Z;
  hits : list Hit
}.

(** [elasticsearch.Elasticsearch], plus [elasticsearch.helpers.bulk]. *)
Record Elasticsearch (W : Type) : Type := mkES {
  ping : W -> outcome bool * W;
  indices_exists : string -> W -> outcome bool * W;
  indices_create : string -> json -> json -> W -> outcome unit * W;
  indices_refresh : string -> W -> outcome unit * W;
  indices_analyze : string -> json -> W -> outcome json * W;
  search : string -> json -> W -> outcome Response * W;
  bulk : list json -> W -> outcome (Z * list json) * W
}.
Arguments ping {W} _ _.
Arguments indices_exists {W} _ _ _.
Arguments indices_create {W} _ _ _ _ _.
Arguments indices_refresh {W} _ _ _.
Arguments indices_analyze {W} _ _ _ _.
Arguments search {W} _ _ _ _.
Arguments bulk {W} _ _ _.

(** [langchain_openai.OpenAIEmbeddings]. *)
Record OpenAIEmbeddings (W : Type) : Type := mkEmb {
  embed_documents : list string -> W -> outcome (list embedding) * W;
  embed_query : string -> W -> outcome embedding * W
}.
Arguments embed_documents {W} _ _ _.
Arguments embed_query {W} _ _ _.


(** ** [list.sort(key=..., reverse=True)] *)

(** CPython sorts with a stable ascending sort; for [reverse=True] it
    reverses the list, applies the stable ascending sort, and reverses the
    result, which keeps equal keys in their original order.  Every stable
    sort yields the same list, so the ascending pass is written as a stable
    insertion sort. *)
Section Sort.
Context {A : Type}.
Variable key : A -> Q.

Fixpoint insert_sorted (x : A) (l : list A) : list A :=
  match l with
  | [] => [x]
  | y :: l' =>
      if Qle_bool (key x) (key y) then x :: y :: l'
      else y :: insert_sorted x l'
  end.

Definition sort_ascending (l : list A) : list A :=
  fold_right insert_sorted [] l.

Definition list_sort_reverse (l : list A) : list A :=
  rev (sort_ascending (rev l)).

End Sort.

(** ** [ElasticsearchHandler] *)

Module ElasticsearchHandler.

Record SearchResult : Type := mkResult {
  id : string;
  score : Q;
  content : json;
  metadata : json
}.

Definition embedding_dim : Z := 1536.

(** The two dictionaries built by [_create_index]. *)
Definition settings : json :=
  JDict [
    ("analysis", JDict [
      ("tokenizer", JDict [
        ("nori_user_dict", JDict [
          ("type", JStr "nori_tokenizer");
          ("user_dictionary", JStr "userdict_ko.txt");
          ("decompound_mode", JStr "mixed")])]);
      ("analyzer", JDict [
        ("nori_analyzer", JDict [
          ("type", JStr "custom");
          ("tokenizer", JStr "nori_tokenizer");
          ("filter", JList [JStr "lowercase";
                            JStr "nori_part_of_speech";
                            JStr "nori_readingform"])])]);
      ("filter", JDict [
        ("nori_part_of_speech", JDict [
          ("type", JStr "nori_part_of_speech");
          ("stoptags", JList (map JStr
             ["E"; "IC"; "J"; "MAG"; "MAJ"; "MM"; "SP"; "SSC"; "SSO";
              "SC"; "SE"; "XPN"; "XSA"; "XSN"; "XSV"; "UNA"; "NA";
              "VSV"]))])])]);
    ("similarity", JDict [
      ("bm25_korean", JDict [
        ("type", JStr "BM25");
        ("k1", JFloat (12 # 10));
        ("b", JFloat (75 # 100))])])].

Definition mappings : json :=
  JDict [
    ("properties", JDict [
      ("content", JDict [
        ("type", JStr "text");
        ("analyzer", JStr "nori_analyzer");
        ("similarity", JStr "bm25_korean")]);
      ("embedding", JDict [
        ("type", JStr "dense_vector");
        ("dims", JInt embedding_dim);
        ("index", JBool true);
        ("similarity", JStr "cosine")]);
      ("metadata", JDict [
        ("type", JStr "object");
        ("enabled", JBool true)])])].

(** [zip(contents, embeddings, metadata_list)]: stops at the shortest. *)
Fixpoint zip3 {A B C} (a : list A) (b : list B) (c : list C)
  : list (A * B * C) :=
  match a, b, c with
  | x :: a', y :: b', z :: c' => (x, y, z) :: zip3 a' b' c'
  | _, _, _ => []
  end.

(** The request body chosen by [search_similar] from [search_type]. *)
Definition search_body (search_type query_text : string)
    (query_embedding : embedding) (top_k : Z) : json :=
  if String.eqb search_type "vector" then
    JDict [
      ("knn", JDict [
        ("field", JStr "embedding");
        ("query_vector", json_of_embedding query_embedding);
        ("k", JInt top_k);
        ("num_candidates", JInt (top_k * 10))]);
      ("_source", JList [JStr "content"; JStr "metadata"])]
  else if String.eqb search_type "bm25" then
    JDict [
      ("query", JDict [
        ("match", JDict [
          ("content", JDict [
            ("query", JStr query_text);
            ("analyzer", JStr "nori_analyzer")])])]);
      ("size", JInt top_k);
      ("_source", JList [JStr "content"; JStr "metadata"])]
  else
    JDict [
      ("query", JDict [
        ("bool", JDict [
          ("should", JList [
            JDict [
              ("match", JDict [
                ("content", JDict [
                  ("query", JStr query_text);
                  ("analyzer", JStr "nori_analyzer");
                  ("boost", JFloat 1)])])]])])]);
      ("knn", JDict [
        ("field", JStr "embedding");
        ("query_vector", json_of_embedding query_embedding);
        ("k", JInt top_k);
        ("num_candidates", JInt (top_k * 10));
        ("boost", JFloat 1)]);
      ("size", JInt top_k);
      ("_source", JList [JStr "content"; JStr "metadata"])].

(** The loop over [response['hits']['hits']]. *)
Definition result_of_hit (hit : Hit) : SearchResult :=
  {| id := _id hit;
     score := _score hit;
     content := dict_get "content" (_source hit);
     metadata := dict_get "metadata" (_source hit) |}.

(** [[token['token'] for token in response['tokens']]].  Iterating a list
    yields its items; an empty dict or string yields nothing; iterating a
    non-empty dict or string yields strings, whose subscript by a string is a
    [TypeError], as is iterating any other value. *)
Definition tokens_of (response : json) : outcome (list json) :=
  match getitem "tokens" response with
  | Raise e => Raise e
  | Return (JList l) => map_outcome (getitem "token") l
  | Return (JDict []) => Return []
  | Return (JStr "") => Return []
  | Return _ => Raise (Exception "TypeError")
  end.

Section Handler.
Context {W : Type}.
(** [self.client], [self.embeddings] and [self.index_name]. *)
Variable client : Elasticsearch W.
Variable embeddings : OpenAIEmbeddings W.
Variable index_name : string.

(** [_connect]: a failed ping raises; the exception is logged and
    re-raised. *)
Definition _connect : M W unit :=
  try_except
    (ok <- ext CPing (ping client) ;;
     if ok : bool then ret tt
     else throw (Exception "Elasticsearch connection failed"))
    (fun e => throw e).

(** [_create_index]: logs and re-raises. *)
Definition _create_index : M W unit :=
  try_except
    (ext (CCreate index_name settings mappings)
         (indices_create client index_name settings mappings))
    (fun e => throw e).

(** [_setup_index]: logs and re-raises. *)
Definition _setup_index : M W unit :=
  try_except
    (present <- ext (CExists index_name) (indices_exists client index_name) ;;
     if present : bool then ret tt else _create_index)
    (fun e => throw e).

Definition action (t : string * embedding * json) : json :=
  let '(content, emb, metadata) := t in
  JDict [
    ("_index", JStr index_name);
    ("_source", JDict [
      ("content", JStr content);
      ("embedding", json_of_embedding emb);
      ("metadata", metadata)])].

(** [insert_embeddings]: any exception is logged and turned into [False]. *)
Definition insert_embeddings (contents : list string)
    (metadata_list : list json) : M W bool :=
  try_except
    (embs <- ext (CEmbedDocuments contents)
                 (embed_documents embeddings contents) ;;
     let actions := map action (zip3 contents embs metadata_list) in
     ext (CBulk actions) (bulk client actions) ;;;
     ext (CRefresh index_name) (indices_refresh client index_name) ;;;
     ret true)
    (fun _ => ret false).

(** [search_similar]: the query embedding is computed first, whatever the
    mode; any exception is logged and turned into the empty list. *)
Definition search_similar (query_text : string) (top_k : Z)
    (search_type : string) : M W (list SearchResult) :=
  try_except
    (query_embedding <- ext (CEmbedQuery query_text)
                            (embed_query embeddings query_text) ;;
     let query := search_body search_type query_text query_embedding top_k in
     response <- ext (CSearch index_name query)
                     (search client index_name query) ;;
     let search_results := map result_of_hit (hits response) in
     ret (list_sort_reverse score search_results))
    (fun _ => ret []).

(** The hits the backend hands to a call of [search_similar] started in
    world [w], in the backend's order; none when a call raises. *)
Definition backend_hits (query_text : string) (top_k : Z)
    (search_type : string) (w : W) : list Hit :=
  match embed_query embeddings query_text w with
  | (Return v, w1) =>
      match search client index_name
              (search_body search_type query_text v top_k) w1 with
      | (Return response, _) => hits response
      | (Raise _, _) => []
      end
  | (Raise _, _) => []
  end.

(** [analyze_text]: any exception is logged and turned into the empty
    dict. *)
Definition analyze_text (text : string) : M W json :=
  let body := JDict [("analyzer", JStr "nori_analyzer"); ("text", JStr text)] in
  try_except
    (response <- ext (CAnalyze index_name body)
                     (indices_analyze client index_name body) ;;
     tokens <- lift (tokens_of response) ;;
     ret (JDict [
       ("original", JStr text);
       ("tokens", JList tokens);
       ("token_count", JInt (Z.of_nat (length tokens)))]))
    (fun _ => ret (JDict [])).

End Handler.

End ElasticsearchHandler.

(** ** Analyzer resolution *)

(** How the backend reads the [analysis] settings of an index: a custom
    analyzer names its tokenizer; the name denotes the tokenizer declared
    under [analysis.tokenizer] when there is one, and otherwise the built-in
    tokenizer of that name with its default parameters.  [builtin_default] is
    the backend's default [decompound_mode] (Elasticsearch documents
    [discard] for [nori_tokenizer]). *)
Module Analysis.

Definition analyzer_tokenizer (s : json) (analyzer : string) : option json :=
  path ["analysis"; "analyzer"; analyzer; "tokenizer"] s.

Definition declared_tokenizer (s : json) (name : string) : option json :=
  path ["analysis"; "tokenizer"; name] s.

Definition decompound_mode (builtin_default : string) (s : json)
    (analyzer : string) : option string :=
  match analyzer_tokenizer s analyzer with
  | Some (JStr name) =>
      match declared_tokenizer s name with
      | Some t =>
          match path ["decompound_mode"] t with
          | Some (JStr m) => Some m
          | _ => Some builtin_default
          end
      | None => Some builtin_default
      end
  | _ => None
  end.

(** The analyzers of [s] whose tokenizer is [name]. *)
Definition analyzers_using (s : json) (name : string) : list string :=
  match path ["analysis"; "analyzer"] s with
  | Some (JDict d) =>
      map fst
        (filter (fun kv =>
                   match path ["tokenizer"] (snd kv) with
                   | Some (JStr n) => String.eqb n name
                   | _ => false
                   end) d)
  | _ => []
  end.

End Analysis.

(** ** The [/search/] route of [main.py] *)

Module Main.

Definition INDEX_NAME : string := "documents".

Record SearchQuery : Type := mkQuery {
  query : string;
  size : option Z;
  category : option string
}.

Record SearchResult : Type := mkResult {
  id : string;
  title : json;
  content : json;
  category_of : json;
  score : Q
}.

Record SearchResponse : Type := mkSearchResponse {
  total_of : Z;
  results : list SearchResult;
  took_of : Z
}.

(** [d[k1]...[kn] = v] through nested dicts that are all present. *)
Fixpoint set_path (ks : list string) (v : json) (j : json) : json :=
  match ks, j with
  | [k], JDict d => JDict (dict_set k v d)
  | k :: ks', JDict d =>
      match lookup k d with
      | Some child => JDict (dict_set k (set_path ks' v child) d)
      | None => j
      end
  | _, _ => j
  end.

(** Truth value of an [Optional[str]]: [None] and the empty string are
    false. *)
Definition truthy (o : option string) : bool :=
  match o with
  | Some s => negb (String.eqb s "")
  | None => false
  end.

Definition json_of_size (o : option Z) : json :=
  match o with Some n => JInt n | None => JNull end.

Definition base_body (sq : SearchQuery) : json :=
  JDict [
    ("query", JDict [
      ("bool", JDict [
        ("must", JList [
          JDict [
            ("multi_match", JDict [
              ("query", JStr (query sq));
              ("fields", JList [JStr "title^2"; JStr "content"]);
              ("type", JStr "best_fields");
              ("fuzziness", JStr "AUTO")])]])])]);
    ("size", json_of_size (size sq));
    ("_source", JList [JStr "title"; JStr "content"; JStr "category"])].

Definition query_body (sq : SearchQuery) : json :=
  if truthy (category sq) then
    set_path ["query"; "bool"; "filter"]
      (JList [JDict [("term", JDict [
         ("category", match category sq with
                      | Some c => JStr c
                      | None => JNull
                      end)])]])
      (base_body sq)
  else base_body sq.

Definition result_of_hit (hit : Hit) : outcome SearchResult :=
  match getitem "title" (JDict (_source hit)) with
  | Raise e => Raise e
  | Return t =>
      match getitem "content" (JDict (_source hit)) with
      | Raise e => Raise e
      | Return c =>
          Return {| id := _id hit;
                    title := t;
                    content := c;
                    category_of := dict_get "category" (_source hit);
                    score := _score hit |}
      end
  end.

Definition detail_of (e : exn) : string :=
  ("search failed: " ++ str_of_exn e)%string.

Section Route.
Context {W : Type}.
(** The module-level client [es]. *)
Variable es : Elasticsearch W.

(** [search_documents]: any exception is logged and answered with
    HTTP 500, whose detail is the exception's message after a fixed
    prefix (rendered here in English). *)
Definition search_documents (search_query : SearchQuery)
  : M W SearchResponse :=
  try_except
    (let body := query_body search_query in
     response <- ext (CSearch INDEX_NAME body) (search es INDEX_NAME body) ;;
     rs <- lift (map_outcome result_of_hit (hits response)) ;;
     ret {| total_of := total response;
            results := rs;
            took_of := took response |})
    (fun e => throw (HTTPException 500 (detail_of e))).

End Route.

End Main.

(** ** A reference evaluation of [bool] queries *)

(** The backend's documented reading of a [bool] query, over the documents
    of one index: a document is a hit when it matches every [must] and every
    [filter] clause; its score is the sum of the scores of the [must]
    clauses; [filter] clauses are evaluated in filter context and contribute
    no score.  A [term] clause matches by exact equality of the field value.
    How well a full-text clause matches a document is left to an oracle
    [relevance]. *)
Module Reference.

Record Doc : Type := mkDoc { doc_id : string; doc_source : dict }.

Section Eval.
Variable relevance : json -> Doc -> option Q.

Definition clause_matches (c : json) (d : Doc) : bool :=
  match c with
  | JDict [("term", JDict [(field, JStr v)])] =>
      match lookup field (doc_source d) with
      | Some (JStr v') => String.eqb v v'
      | _ => false
      end
  | _ => match relevance c d with Some _ => true | None => false end
  end.

Definition clause_score (c : json) (d : Doc) : Q :=
  match relevance c d with Some s => s | None => 0%Q end.

Definition clauses (k : string) (body : json) : list json :=
  match path ["query"; "bool"; k] body with
  | Some (JList l) => l
  | _ => []
  end.

Definition doc_matches (body : json) (d : Doc) : bool :=
  forallb (fun c => clause_matches c d) (clauses "must" body)
  && forallb (fun c => clause_matches c d) (clauses "filter" body).

Definition doc_score (body : json) (d : Doc) : Q :=
  fold_right (fun c acc => (clause_score c d + acc)%Q) 0%Q
             (clauses "must" body).

Definition source_fields (body : json) (src : dict) : dict :=
  match path ["_source"] body with
  | Some (JList fs) =>
      filter (fun kv =>
                existsb (fun f => match f with
                                  | JStr n => String.eqb n (fst kv)
                                  | _ => false
                                  end) fs) src
  | _ => src
  end.

Definition hit_of (body : json) (d : Doc) : Hit :=
  {| _id := doc_id d;
     _score := doc_score body d;
     _source := source_fields body (doc_source d) |}.

Definition page_size (body : json) : nat :=
  match path ["size"] body with
  | Some (JInt n) => Z.to_nat n
  | _ => 10%nat
  end.

Definition run_search (body : json) (docs : list Doc) : Response :=
  let matching := filter (doc_matches body) docs in
  {| took := 0;
     total := Z.of_nat (length matching);
     hits := firstn (page_size body)
               (list_sort_reverse _score (map (hit_of body) matching)) |}.

(** A client whose world is the document list of the index; only [search]
    is of interest here. *)
Definition es : Elasticsearch (list Doc) :=
  {| ping := fun w => (Return true, w);
     indices_exists := fun _ w => (Return true, w);
     indices_create := fun _ _ _ w =>
       (Raise (Exception "resource_already_exists_exception"), w);
     indices_refresh := fun _ w => (Return tt, w);
     indices_analyze := fun _ _ w => (Return (JDict [("tokens", JList [])]), w);
     search := fun _ body w => (Return (run_search body w), w);
     bulk := fun _ w => (Return (0, []), w) |}.

End Eval.

End Reference.

(** ** An in-memory double of the two collaborators *)

(** Used to run the handler on concrete inputs.  The backend keeps the names
    of its indices and the written documents, split into those not yet
    refreshed and those visible; it answers every search with a canned
    response.  [down] makes every backend call raise; the embedding provider
    raises for a batch that contains a text listed in [bad]. *)
Module Double.

Record Mem : Type := mkMem {
  indices : list string;
  pending : list json;
  visible : list json
}.

Section Double.
Variable down : bool.
Variable canned : Response.
Variable analysis : json.
Variable bad : list string.

Definition guarded {A} (f : Mem -> outcome A * Mem) : Mem -> outcome A * Mem :=
  fun w => if down then (Raise (Exception "ConnectionError"), w) else f w.

Definition has_index (i : string) (w : Mem) : bool :=
  existsb (String.eqb i) (indices w).

Definition es : Elasticsearch Mem :=
  {| ping := fun w => (Return (negb down), w);
     indices_exists := fun i => guarded (fun w => (Return (has_index i w), w));
     indices_create := fun i _ _ =>
       guarded (fun w =>
         if has_index i w
         then (Raise (Exception "resource_already_exists_exception"), w)
         else (Return tt, mkMem (indices w ++ [i]) (pending w) (visible w)));
     indices_refresh := fun _ =>
       guarded (fun w =>
         (Return tt, mkMem (indices w) [] (visible w ++ pending w)));
     indices_analyze := fun _ _ => guarded (fun w => (Return analysis, w));
     search := fun _ _ => guarded (fun w => (Return canned, w));
     bulk := fun actions =>
       guarded (fun w =>
         (Return (Z.of_nat (length actions), []),
          mkMem (indices w) (pending w ++ actions) (visible w))) |}.

Definition fails (text : string) : bool := existsb (String.eqb text) bad.

Definition vector_of (text : string) : embedding :=
  [Z.of_nat (String.length text) # 1; 1 # 2]%Q.

Definition emb : OpenAIEmbeddings Mem :=
  {| embed_documents := fun texts w =>
       if existsb fails texts
       then (Raise (Exception "EmbeddingError"), w)
       else (Return (map vector_of texts), w);
     embed_query := fun text w =>
       if fails text
       then (Raise (Exception "EmbeddingError"), w)
       else (Return (vector_of text), w) |}.

End Double.

Definition empty : Mem := mkMem [] [] [].

Definition hit (i : string) (s : Q) (c : string) : Hit :=
  mkHit i s [("content", JStr c); ("metadata", JDict [])].

Definition no_hits : Response := mkResponse 1 0 [].

Definition no_tokens : json := JDict [("tokens", JList [])].

Definition four_hits : Response :=
  mkResponse 3 4
    [hit "a" 1 "one"; hit "b" 3 "two"; hit "c" 3 "three"; hit "d" 2 "four"].

(** A reachable backend and an unreachable one. *)
Definition up : Elasticsearch Mem := es false four_hits no_tokens.
Definition unreachable : Elasticsearch Mem := es true four_hits no_tokens.

Definition three_texts : list string := ["a"; "bad"; "c"].
Definition three_metas : list json := [JDict []; JDict []; JDict []].

End Double.

(** Two stored documents of different categories, and an oracle for which
    every full-text clause matches every document with score 1. *)
Module Sample.

Definition docs : list Reference.Doc :=
  [Reference.mkDoc "1"
     [("title", JStr "Python"); ("content", JStr "a language");
      ("category", JStr "programming")];
   Reference.mkDoc "2"
     [("title", JStr "Python and SQL"); ("content", JStr "a database");
      ("category", JStr "database")]].

Definition relevance (c : json) (d : Reference.Doc) : option Q := Some 1%Q.

End Sample.

(** ** The rest of the handler and of the REST surface *)

From Stdlib Require Import DecimalString.

(** An external call that has no entry in the vocabulary of logged calls: it
    acts on the world, and the methods that use it are specified by their
    outcome and by the world they leave. *)
Definition run {W A} (f : W -> outcome A * W) : M W A :=
  fun st => let (o, w') := f (world st) in (o, St w' (trace st)).

(** [j[k1][k2]...], each subscript raising as [getitem] does. *)
Fixpoint getpath (ks : list string) (j : json) : outcome json :=
  match ks with
  | [] => Return j
  | k :: ks' =>
      match getitem k j with
      | Return v => getpath ks' v
      | Raise e => Raise e
      end
  end.



(** [client.indices.stats]. *)
Record ElasticsearchStats (W : Type) : Type := mkStats {
  indices_stats : string -> W -> outcome json * W
}.
Arguments indices_stats {W} _ _ _.

(** [__init__] and [get_index_stats] of [ElasticsearchHandler]. *)
Module Lifecycle.





Section Lifecycle.
Context {W : Type}.
Variable client : Elasticsearch W.
Variable stats_api : ElasticsearchStats W.
Variable index_name : string.

(** The two calls that end [__init__]. *)
Definition __init__ : M W unit :=
  ElasticsearchHandler._connect client ;;;
  ElasticsearchHandler._setup_index client index_name.

(** [get_index_stats]: any exception is logged and turned into the empty
    dict.  The entries of the result are evaluated in order. *)
Definition get_index_stats : M W json :=
  try_except
    (stats <- run (indices_stats stats_api index_name) ;;
     document_count <-
       lift (getpath ["indices"; index_name; "total"; "docs"; "count"]
               stats) ;;
     store_size <-
       lift (getpath ["indices"; index_name; "total"; "store";
                      "size_in_bytes"] stats) ;;
     ret (JDict [
       ("document_count", document_count);
       ("store_size", store_size);
       ("index_name", JStr index_name)]))
    (fun _ => ret (JDict [])).

End Lifecycle.

End Lifecycle.

(** The other routes of [main.py]. *)
Module Routes.

Record Document : Type := mkDocument {
  id : string;
  title : string;
  content : string;
  category : option string
}.

(** [es.info], [es.index], [es.delete] and [es.count]; each answers with the
    body of its response. *)
Record ElasticsearchDocs (W : Type) : Type := mkDocs {
  info : W -> outcome json * W;
  index : string -> string -> json -> W -> outcome json * W;
  delete : string -> string -> W -> outcome json * W;
  count : string -> W -> outcome json * W
}.
Arguments info {W} _ _.
Arguments index {W} _ _ _ _ _.
Arguments delete {W} _ _ _ _.
Arguments count {W} _ _ _.

(** The body passed to [es.indices.create] by [startup_event]. *)
Definition mapping : json :=
  JDict [
    ("mappings", JDict [
      ("properties", JDict [
        ("title", JDict [
          ("type", JStr "text");
          ("analyzer", JStr "standard");
          ("similarity", JStr "BM25")]);
        ("content", JDict [
          ("type", JStr "text");
          ("analyzer", JStr "standard");
          ("similarity", JStr "BM25")]);
        ("category", JDict [("type", JStr "keyword")])])]);
    ("settings", JDict [
      ("index", JDict [
        ("similarity", JDict [
          ("default", JDict [
            ("type", JStr "BM25");
            ("k1", JFloat (15 # 10));
            ("b", JFloat (75 # 100))])])])])].

(** [es.indices.create(index=..., body=mapping)] sends the two entries of
    the body as the settings and the mappings of the request. *)
Definition body_part (k : string) (body : json) : json :=
  match body with JDict d => dict_get k d | _ => JNull end.

Definition json_of_category (c : option string) : json :=
  match c with Some s => JStr s | None => JNull end.

Definition document_body (document : Document) : json :=
  JDict [
    ("title", JStr (title document));
    ("content", JStr (content document));
    ("category", json_of_category (category document))].

(** The fixed texts of the messages, rendered in English. *)
Definition added (i : string) : string :=
  ("document '" ++ i ++ "' added")%string.
Definition deleted (i : string) : string :=
  ("document '" ++ i ++ "' deleted")%string.
Definition failed (what : string) (e : exn) : string :=
  (what ++ " failed: " ++ str_of_exn e)%string.

Section Routes.
Context {W : Type}.
(** The module-level client [es]. *)
Variable es : Elasticsearch W.
Variable es_docs : ElasticsearchDocs W.

(** [startup_event]: creates the index when it is absent; any exception is
    logged and dropped. *)
Definition startup_event : M W unit :=
  try_except
    (present <- ext (CExists Main.INDEX_NAME)
                    (indices_exists es Main.INDEX_NAME) ;;
     if present : bool then ret tt
     else
       ext (CCreate Main.INDEX_NAME (body_part "settings" mapping)
              (body_part "mappings" mapping))
           (indices_create es Main.INDEX_NAME (body_part "settings" mapping)
              (body_part "mappings" mapping)))
    (fun _ => ret tt).


(** [add_document]: index, refresh, answer; any exception is answered with
    HTTP 500. *)
Definition add_document (document : Document) : M W json :=
  try_except
    (response <- run (index es_docs Main.INDEX_NAME (id document)
                        (document_body document)) ;;
     ext (CRefresh Main.INDEX_NAME) (indices_refresh es Main.INDEX_NAME) ;;;
     result <- lift (getitem "result" response) ;;
     ret (JDict [
       ("message", JStr (added (id document)));
       ("result", result)]))
    (fun e => throw (HTTPException 500 (failed "add" e))).

(** [delete_document]: delete, refresh, answer; any exception is answered
    with HTTP 500. *)
Definition delete_document (doc_id : string) : M W json :=
  try_except
    (run (delete es_docs Main.INDEX_NAME doc_id) ;;;
     ext (CRefresh Main.INDEX_NAME) (indices_refresh es Main.INDEX_NAME) ;;;
     ret (JDict [("message", JStr (deleted doc_id))]))
    (fun e => throw (HTTPException 500 (failed "delete" e))).

(** [get_document_count]: any exception is answered with HTTP 500. *)
Definition get_document_count : M W json :=
  try_except
    (response <- run (count es_docs Main.INDEX_NAME) ;;
     n <- lift (getitem "count" response) ;;
     ret (JDict [("count", n)]))
    (fun e => throw (HTTPException 500 (failed "count" e))).

End Routes.

End Routes.

(** In-memory doubles of the additional backend calls. *)
Module Fixture.

(** The statistics of an index of the in-memory backend of [Double]. *)
Definition stats_of (i : string) (w : Double.Mem) : json :=
  JDict [
    ("indices", JDict [
      (i, JDict [
        ("total", JDict [
          ("docs", JDict [
            ("count", JInt (Z.of_nat (length (Double.visible w))))]);
          ("store", JDict [("size_in_bytes", JInt 0)])])])])].

Definition stats : ElasticsearchStats Double.Mem :=
  {| indices_stats := fun i w =>
       if Double.has_index i w then (Return (stats_of i w), w)
       else (Raise (Exception "index_not_found_exception"), w) |}.

Definition has_id (i : string) (d : Reference.Doc) : bool :=
  String.eqb i (Reference.doc_id d).

Definition source_of (body : json) : dict :=
  match body with JDict d => d | _ => [] end.

(** A document store: indexing replaces the document of the same id or
    appends a new one; deleting an unknown id raises. *)
Definition docs : Routes.ElasticsearchDocs (list Reference.Doc) :=
  {| Routes.info := fun w =>
       (Return (JDict [("version", JDict [("number", JStr "8.11.0")])]), w);
     Routes.index := fun _ i body w =>
       if existsb (has_id i) w
       then (Return (JDict [("result", JStr "updated")]),
             map (fun d => if has_id i d
                           then Reference.mkDoc i (source_of body)
                           else d) w)
       else (Return (JDict [("result", JStr "created")]),
             w ++ [Reference.mkDoc i (source_of body)]);
     Routes.delete := fun _ i w =>
       if existsb (has_id i) w
       then (Return (JDict [("result", JStr "deleted")]),
             filter (fun d => negb (has_id i d)) w)
       else (Raise (Exception "NotFoundError"), w);
     Routes.count := fun _ w =>
       (Return (JDict [("count", JInt (Z.of_nat (length w)))]), w) |}.

(** A store whose every call raises. *)
Definition docs_down : Routes.ElasticsearchDocs (list Reference.Doc) :=
  {| Routes.info := fun w => (Raise (Exception "ConnectionError"), w);
     Routes.index := fun _ _ _ w => (Raise (Exception "ConnectionError"), w);
     Routes.delete := fun _ _ w => (Raise (Exception "ConnectionError"), w);
     Routes.count := fun _ w => (Raise (Exception "ConnectionError"), w) |}.

Definition python_doc : Routes.Document :=
  Routes.mkDocument "3" "Python" "a language" (Some "programming").

(** A response already in score order, and a backend that returns it. *)
Definition ordered_hits : Response :=
  mkResponse 2 3
    [Double.hit "b" 3 "two"; Double.hit "d" 2 "four"; Double.hit "a" 1 "one"].

Definition two_tokens : json :=
  JDict [("tokens", JList [JDict [("token", JStr "seoul"); ("position", JInt 0)];
                           JDict [("token", JStr "meal"); ("position", JInt 1)]])].

Definition broken_tokens : json :=
  JDict [("tokens", JList [JDict [("token", JStr "seoul")];
                           JDict [("position", JInt 1)]])].

Definition ordered : Elasticsearch Double.Mem :=
  Double.es false ordered_hits two_tokens.

Definition broken : Elasticsearch Double.Mem :=
  Double.es false ordered_hits broken_tokens.

(** The sample documents and one without a title. *)
Definition untitled : list Reference.Doc :=
  Sample.docs ++ [Reference.mkDoc "9" [("content", JStr "no title")]].

End Fixture.

(** * Properties *)

(** ** The descending stable sort *)

Section SortFacts.
Context {A : Type}.
Variable key : A -> Q.

Let asc (a b : A) : Prop := (key a <= key b)%Q.
Let desc (a b : A) : Prop := (key b <= key a)%Q.
Let same (s : Q) (a : A) : bool := Qeq_bool (key a) s.

Lemma insert_sorted_perm (x : A) (l : list A) :
  Permutation (insert_sorted key x l) (x :: l).
Proof.
  induction l as [|y l IH]; simpl.
  - apply Permutation_refl.
  - destruct (Qle_bool (key x) (key y)).
    + apply Permutation_refl.
    + eapply perm_trans; [apply perm_skip, IH | apply perm_swap].
Qed.

Lemma sort_ascending_perm (l : list A) :
  Permutation (sort_ascending key l) l.
Proof.
  induction l as [|x l IH]; simpl.
  - constructor.
  - eapply perm_trans; [apply insert_sorted_perm | apply perm_skip, IH].
Qed.

Lemma list_sort_reverse_perm (l : list A) :
  Permutation (list_sort_reverse key l) l.
Proof.
  unfold list_sort_reverse.
  eapply perm_trans; [apply Permutation_sym, Permutation_rev |].
  eapply perm_trans; [apply sort_ascending_perm |].
  apply Permutation_sym, Permutation_rev.
Qed.

Lemma insert_sorted_strongly (x : A) (l : list A) :
  StronglySorted asc l -> StronglySorted asc (insert_sorted key x l).
Proof.
  induction 1 as [|y l Hl IH Hy]; simpl.
  - constructor; constructor.
  - destruct (Qle_bool (key x) (key y)) eqn:E.
    + apply Qle_bool_iff in E.
      constructor; [constructor; assumption|].
      constructor; [exact E|].
      eapply Forall_impl; [|exact Hy].
      intros z Hz. unfold asc in *. eapply Qle_trans; eassumption.
    + constructor; [exact IH|].
      assert (Hyx : asc y x).
      { unfold asc. apply Qlt_le_weak, Qnot_le_lt.
        intro H. apply Qle_bool_iff in H. congruence. }
      eapply Permutation_Forall;
        [apply Permutation_sym, insert_sorted_perm|].
      constructor; assumption.
Qed.

Lemma sort_ascending_strongly (l : list A) :
  StronglySorted asc (sort_ascending key l).
Proof.
  induction l as [|x l IH]; simpl.
  - constructor.
  - apply insert_sorted_strongly, IH.
Qed.

Lemma strongly_sorted_snoc (R : A -> A -> Prop) (l : list A) (x : A) :
  StronglySorted R l -> Forall (fun y => R y x) l ->
  StronglySorted R (l ++ [x]).
Proof.
  induction 1 as [|y l Hl IH Hy]; intros Hx; simpl.
  - constructor; constructor.
  - inversion Hx as [|? ? Hyx Hlx]; subst.
    constructor; [apply IH, Hlx|].
    apply Forall_app; split; [exact Hy | constructor; [exact Hyx | constructor]].
Qed.

Lemma strongly_sorted_rev (l : list A) :
  StronglySorted asc l -> StronglySorted desc (rev l).
Proof.
  induction 1 as [|y l Hl IH Hy]; simpl.
  - constructor.
  - apply strongly_sorted_snoc; [exact IH|].
    apply Forall_rev. exact Hy.
Qed.

Lemma list_sort_reverse_strongly (l : list A) :
  StronglySorted desc (list_sort_reverse key l).
Proof.
  apply strongly_sorted_rev, sort_ascending_strongly.
Qed.

Lemma strongly_sorted_adjacent (R : A -> A -> Prop) (l : list A) :
  StronglySorted R l ->
  forall i a b,
    nth_error l i = Some a -> nth_error l (S i) = Some b -> R a b.
Proof.
  induction 1 as [|x l Hl IH Hx]; intros i a b Ha Hb.
  - destruct i; discriminate.
  - destruct i as [|i]; simpl in Ha, Hb.
    + injection Ha as <-.
      rewrite Forall_forall in Hx. apply Hx.
      destruct l; [discriminate|]. simpl in Hb. injection Hb as <-.
      left; reflexivity.
    + eapply IH; eassumption.
Qed.

(** The key of [x] compared with [s] decides whether [x] survives the
    filter; inserting [x] never moves it past an element of equal key. *)
Lemma insert_sorted_stable (s : Q) (x : A) (l : list A) :
  filter (same s) (insert_sorted key x l) = filter (same s) (x :: l).
Proof.
  induction l as [|y l IH]; [reflexivity|].
  simpl insert_sorted.
  destruct (Qle_bool (key x) (key y)) eqn:E; [reflexivity|].
  change (filter (same s) (y :: insert_sorted key x l))
    with (if same s y then y :: filter (same s) (insert_sorted key x l)
          else filter (same s) (insert_sorted key x l)).
  rewrite IH. simpl.
  destruct (same s x) eqn:Ex, (same s y) eqn:Ey; try reflexivity.
  exfalso. unfold same in Ex, Ey.
  apply Qeq_bool_iff in Ex, Ey.
  assert (H : Qle_bool (key x) (key y) = true).
  { apply Qle_bool_iff. rewrite Ex, Ey. apply Qle_refl. }
  congruence.
Qed.

Lemma sort_ascending_stable (s : Q) (l : list A) :
  filter (same s) (sort_ascending key l) = filter (same s) l.
Proof.
  induction l as [|x l IH]; [reflexivity|].
  simpl sort_ascending. rewrite insert_sorted_stable.
  simpl. rewrite IH. reflexivity.
Qed.

Lemma list_sort_reverse_stable (s : Q) (l : list A) :
  filter (fun a => Qeq_bool (key a) s) (list_sort_reverse key l)
  = filter (fun a => Qeq_bool (key a) s) l.
Proof.
  unfold list_sort_reverse.
  rewrite filter_rev.
  change (fun a => Qeq_bool (key a) s) with (same s).
  rewrite sort_ascending_stable, filter_rev, rev_involutive.
  reflexivity.
Qed.

Lemma list_sort_reverse_adjacent (l : list A) (i : nat) (a b : A) :
  nth_error (list_sort_reverse key l) i = Some a ->
  nth_error (list_sort_reverse key l) (S i) = Some b ->
  (key b <= key a)%Q.
Proof.
  intros Ha Hb.
  exact (strongly_sorted_adjacent desc _ (list_sort_reverse_strongly l)
           i a b Ha Hb).
Qed.

End SortFacts.

(** ** The handler *)

Section HandlerFacts.
Context {W : Type}.
Variable client : Elasticsearch W.
Variable embeddings : OpenAIEmbeddings W.
Variable index_name : string.

Import ElasticsearchHandler.

(** What [search_similar] does, by the outcome of its two calls. *)
Lemma search_similar_run (q : string) (k : Z) (ty : string) (st : state W) :
  search_similar client embeddings index_name q k ty st =
  match embed_query embeddings q (world st) with
  | (Raise _, w1) =>
      (Return [], St w1 (trace st ++ [Ev (CEmbedQuery q) true]))
  | (Return v, w1) =>
      let body := search_body ty q v k in
      let tr := (trace st ++ [Ev (CEmbedQuery q) false]) in
      match search client index_name body w1 with
      | (Raise _, w2) =>
          (Return [], St w2 (tr ++ [Ev (CSearch index_name body) true]))
      | (Return r, w2) =>
          (Return (list_sort_reverse score (map result_of_hit (hits r))),
           St w2 (tr ++ [Ev (CSearch index_name body) false]))
      end
  end.
Proof.
  unfold search_similar, try_except, bind, ext, ret. simpl.
  destruct (embed_query embeddings q (world st)) as [[v|e] w1]; simpl;
    [|reflexivity].
  destruct (search client index_name (search_body ty q v k) w1)
    as [[r|e] w2]; reflexivity.
Qed.

(** What [insert_embeddings] does, by the outcome of its three calls. *)
Lemma insert_embeddings_run (contents : list string) (metas : list json)
    (st : state W) :
  insert_embeddings client embeddings index_name contents metas st =
  match embed_documents embeddings contents (world st) with
  | (Raise _, w1) =>
      (Return false, St w1 (trace st ++ [Ev (CEmbedDocuments contents) true]))
  | (Return embs, w1) =>
      let actions := map (action index_name) (zip3 contents embs metas) in
      let tr1 := trace st ++ [Ev (CEmbedDocuments contents) false] in
      match bulk client actions w1 with
      | (Raise _, w2) => (Return false, St w2 (tr1 ++ [Ev (CBulk actions) true]))
      | (Return _, w2) =>
          let tr2 := tr1 ++ [Ev (CBulk actions) false] in
          match indices_refresh client index_name w2 with
          | (Raise _, w3) =>
              (Return false, St w3 (tr2 ++ [Ev (CRefresh index_name) true]))
          | (Return _, w3) =>
              (Return true, St w3 (tr2 ++ [Ev (CRefresh index_name) false]))
          end
      end
  end.
Proof.
  unfold insert_embeddings, try_except, bind, ext, ret. simpl.
  destruct (embed_documents embeddings contents (world st))
    as [[embs|e] w1]; simpl; [|reflexivity].
  destruct (bulk client _ w1) as [[r|e] w2]; simpl; [|reflexivity].
  destruct (indices_refresh client index_name w2) as [[u|e] w3];
    reflexivity.
Qed.

(** ** Bulk insertion and embedding failures *)

(** C1, as the code has it: when embedding generation fails for the batch,
    [insert_embeddings] issues neither a bulk write nor a refresh, so no
    document at all is written, and it returns the plain boolean [False]. *)
Theorem insert_embeddings_embedding_failure
    (contents : list string) (metas : list json) (st : state W)
    (e : exn) (w1 : W) :
  embed_documents embeddings contents (world st) = (Raise e, w1) ->
  insert_embeddings client embeddings index_name contents metas st =
  (Return false, St w1 (trace st ++ [Ev (CEmbedDocuments contents) true])).
Proof.
  intros H. rewrite insert_embeddings_run, H. reflexivity.
Qed.

(** C10: a call of [insert_embeddings] that returns [True] has embedded the
    batch, written it in one bulk call, and then refreshed the index; the
    refresh is its last external call, it follows the bulk write directly and
    it did not raise. *)
Theorem insert_embeddings_refreshes
    (contents : list string) (metas : list json) (st st' : state W) :
  insert_embeddings client embeddings index_name contents metas st = (Return true, st') ->
  exists embs w1 r w2,
    embed_documents embeddings contents (world st) = (Return embs, w1) /\
    let actions := map (action index_name) (zip3 contents embs metas) in
    bulk client actions w1 = (Return r, w2) /\
    indices_refresh client index_name w2 = (Return tt, world st') /\
    trace st' = trace st ++ [Ev (CEmbedDocuments contents) false;
                             Ev (CBulk actions) false;
                             Ev (CRefresh index_name) false].
Proof.
  rewrite insert_embeddings_run.
  destruct (embed_documents embeddings contents (world st))
    as [[embs|e] w1]; [|discriminate].
  cbv zeta.
  destruct (bulk client _ w1) as [[r|e] w2] eqn:Hb; [|discriminate].
  destruct (indices_refresh client index_name w2) as [[[]|e] w3] eqn:Hr;
    [|discriminate].
  intros H. injection H as <-. simpl.
  exists embs, w1, r, w2.
  rewrite Hb, Hr, <- !app_assoc. auto.
Qed.

(** ** Searching *)

(** C2, as the code has it: in every mode, pure BM25 included,
    [search_similar] first asks the provider for the query embedding; the
    BM25 request then carries no vector, and a failed embedding call ends
    the search in every mode with the empty list, before any backend call. *)
Theorem search_similar_always_embeds
    (q : string) (k : Z) (ty : string) (st : state W) :
  (exists b rest,
     trace (snd (search_similar client embeddings index_name q k ty st))
     = trace st ++ Ev (CEmbedQuery q) b :: rest /\
     forall ev, In ev rest -> exists body, ev_call ev = CSearch index_name body)
  /\ (forall v, path ["knn"] (search_body "bm25" q v k) = None)
  /\ (forall e w1,
        embed_query embeddings q (world st) = (Raise e, w1) ->
        search_similar client embeddings index_name q k ty st
        = (Return [], St w1 (trace st ++ [Ev (CEmbedQuery q) true]))).
Proof.
  rewrite search_similar_run.
  split; [|split].
  - destruct (embed_query embeddings q (world st)) as [[v|e] w1].
    + cbv zeta.
      destruct (search client index_name (search_body ty q v k) w1)
        as [[r|e] w2]; simpl; rewrite <- app_assoc; simpl;
        eexists; eexists; (split; [reflexivity|]);
        intros ev [<-|[]]; eexists; reflexivity.
    + simpl. exists true, []. split; [reflexivity|]. intros ev [].
  - reflexivity.
  - intros e w1 H. rewrite H. reflexivity.
Qed.

(** C5: the list [search_similar] returns is ordered by non-increasing
    score, and entries of equal score stand in the order in which the backend
    returned their hits. *)
Theorem search_similar_sorted_stable
    (q : string) (k : Z) (ty : string) (st st' : state W)
    (rs : list SearchResult) :
  search_similar client embeddings index_name q k ty st = (Return rs, st') ->
  (forall i a b,
     nth_error rs i = Some a -> nth_error rs (S i) = Some b ->
     (score b <= score a)%Q)
  /\ (forall s,
        filter (fun r => Qeq_bool (score r) s) rs
        = filter (fun r => Qeq_bool (score r) s)
            (map result_of_hit
               (backend_hits client embeddings index_name q k ty (world st))))
  /\ Permutation rs
        (map result_of_hit
           (backend_hits client embeddings index_name q k ty (world st))).
Proof.
  rewrite search_similar_run. unfold backend_hits.
  destruct (embed_query embeddings q (world st)) as [[v|e] w1].
  - cbv zeta.
    destruct (search client index_name (search_body ty q v k) w1)
      as [[r|e] w2]; intros H; injection H as <- _.
    + split; [|split].
      * intros i a b. apply list_sort_reverse_adjacent.
      * intros s. apply list_sort_reverse_stable.
      * apply list_sort_reverse_perm.
    + split; [|split]; [intros [] ? ?; discriminate | reflexivity | constructor].
  - intros H; injection H as <- _.
    split; [|split]; [intros [] ? ?; discriminate | reflexivity | constructor].
Qed.

(** C7: for a positive [top_k], the vector-mode request is a k-nearest
    neighbour request and nothing else; its [k] is [top_k] and its candidate
    pool is [top_k * C] for the one factor [C = 10]. *)
Theorem vector_request_candidates
    (q : string) (v : embedding) (top_k : Z) :
  0 < top_k ->
  let body := search_body "vector" q v top_k in
  path ["knn"; "k"] body = Some (JInt top_k)
  /\ path ["query"] body = None
  /\ exists C,
       10 <= C /\
       path ["knn"; "num_candidates"] body = Some (JInt (top_k * C)) /\
       forall C',
         path ["knn"; "num_candidates"] body = Some (JInt (top_k * C')) ->
         C' = C.
Proof.
  intros Hk. simpl.
  split; [reflexivity|]. split; [reflexivity|].
  exists 10. split; [lia|]. split; [reflexivity|].
  intros C' H. injection H as H. nia.
Qed.

(** C9: for a [search_type] other than ["vector"] and ["bm25"], the
    request built is the hybrid one: a [bool] query whose [should] holds the
    match clause on [content] with boost 1, together with the k-nearest
    neighbour clause on [embedding] with [k = top_k], [top_k * 10]
    candidates and boost 1, of size [top_k].  Once the query is embedded,
    [search_similar] sends exactly this request to the backend as its one
    search call and returns the backend's hits sorted by score, or the empty
    list when the search raises.  The call runs exactly as with ["hybrid"],
    and it returns a list, never an error. *)
Theorem search_similar_default_is_hybrid
    (q : string) (k : Z) (ty : string) (st : state W) :
  ty <> "vector" -> ty <> "bm25" ->
  (forall v,
     search_body ty q v k
     = JDict [
         ("query", JDict [
           ("bool", JDict [
             ("should", JList [
               JDict [
                 ("match", JDict [
                   ("content", JDict [
                     ("query", JStr q);
                     ("analyzer", JStr "nori_analyzer");
                     ("boost", JFloat 1)])])]])])]);
         ("knn", JDict [
           ("field", JStr "embedding");
           ("query_vector", json_of_embedding v);
           ("k", JInt k);
           ("num_candidates", JInt (k * 10));
           ("boost", JFloat 1)]);
         ("size", JInt k);
         ("_source", JList [JStr "content"; JStr "metadata"])])
  /\ (forall v w1,
        embed_query embeddings q (world st) = (Return v, w1) ->
        trace (snd (search_similar client embeddings index_name q k ty st))
        = trace st ++
          [Ev (CEmbedQuery q) false;
           Ev (CSearch index_name (search_body ty q v k))
              (is_raise
                 (fst (search client index_name (search_body ty q v k) w1)))]
        /\ world (snd (search_similar client embeddings index_name q k ty st))
           = snd (search client index_name (search_body ty q v k) w1)
        /\ fst (search_similar client embeddings index_name q k ty st)
           = match fst (search client index_name (search_body ty q v k) w1)
             with
             | Return r =>
                 Return (list_sort_reverse score (map result_of_hit (hits r)))
             | Raise _ => Return []
             end)
  /\ (forall v, search_body ty q v k = search_body "hybrid" q v k)
  /\ search_similar client embeddings index_name q k ty st
     = search_similar client embeddings index_name q k "hybrid" st
  /\ exists rs st',
       search_similar client embeddings index_name q k ty st
       = (Return rs, st').
Proof.
  intros Hv Hb.
  apply String.eqb_neq in Hv, Hb.
  assert (Hbody : forall v, search_body ty q v k = search_body "hybrid" q v k).
  { intros v. unfold search_body. rewrite Hv, Hb. reflexivity. }
  split; [intros v; rewrite Hbody; reflexivity|].
  split.
  { intros v w1 He. rewrite search_similar_run, He. cbv zeta.
    destruct (search client index_name (search_body ty q v k) w1)
      as [[r|e] w2]; cbn [fst snd world trace is_raise];
      rewrite <- app_assoc; auto. }
  split; [exact Hbody|].
  rewrite !search_similar_run.
  destruct (embed_query embeddings q (world st)) as [[v|e] w1].
  - cbv zeta. rewrite Hbody. split; [reflexivity|].
    destruct (search client index_name (search_body "hybrid" q v k) w1)
      as [[r|e] w2]; eexists; eexists; reflexivity.
  - split; [reflexivity|]. eexists; eexists; reflexivity.
Qed.

(** ** Failures of the collaborators *)

(** What [analyze_text] does, by the outcome of its call. *)
Lemma analyze_text_run (text : string) (st : state W) :
  let body := JDict [("analyzer", JStr "nori_analyzer"); ("text", JStr text)] in
  analyze_text client index_name text st =
  match indices_analyze client index_name body (world st) with
  | (Raise _, w1) =>
      (Return (JDict []),
       St w1 (trace st ++ [Ev (CAnalyze index_name body) true]))
  | (Return response, w1) =>
      (match tokens_of response with
       | Return tokens =>
           Return (JDict [
             ("original", JStr text);
             ("tokens", JList tokens);
             ("token_count", JInt (Z.of_nat (length tokens)))])
       | Raise _ => Return (JDict [])
       end,
       St w1 (trace st ++ [Ev (CAnalyze index_name body) false]))
  end.
Proof.
  unfold analyze_text, try_except, bind, ext, ret, lift. simpl.
  destruct (indices_analyze client index_name _ (world st))
    as [[response|e] w1]; simpl; [|reflexivity].
  destruct (tokens_of response); reflexivity.
Qed.

Lemma events_since (tr evs evs' : list event) :
  tr ++ evs = tr ++ evs' -> existsb ev_raised evs' = true ->
  existsb ev_raised evs = true.
Proof.
  intros H. apply app_inv_head in H. subst. auto.
Qed.

(** C4, as the code has it: when a call to the backend or to the embedding
    provider raises inside [search_similar], [insert_embeddings] or
    [analyze_text], the exception is caught there and the method returns the
    empty list, [False], or the empty dict. *)
Theorem collaborator_failures_are_caught (st : state W) :
  (forall q k ty evs,
     trace (snd (search_similar client embeddings index_name q k ty st))
     = trace st ++ evs ->
     existsb ev_raised evs = true ->
     fst (search_similar client embeddings index_name q k ty st) = Return [])
  /\ (forall contents metas evs,
        trace (snd (insert_embeddings client embeddings index_name
                      contents metas st))
        = trace st ++ evs ->
        existsb ev_raised evs = true ->
        fst (insert_embeddings client embeddings index_name contents metas st)
        = Return false)
  /\ (forall text evs,
        trace (snd (analyze_text client index_name text st)) = trace st ++ evs ->
        existsb ev_raised evs = true ->
        fst (analyze_text client index_name text st) = Return (JDict [])).
Proof.
  split; [|split].
  - intros q k ty evs. rewrite search_similar_run.
    destruct (embed_query embeddings q (world st)) as [[v|e] w1];
      [|reflexivity].
    cbv zeta.
    destruct (search client index_name (search_body ty q v k) w1)
      as [[r|e] w2]; [|reflexivity].
    simpl. rewrite <- app_assoc. intros H1 H2.
    pose proof (events_since _ _ _ H1 H2) as H. discriminate H.
  - intros contents metas evs. rewrite insert_embeddings_run.
    destruct (embed_documents embeddings contents (world st))
      as [[embs|e] w1]; [|reflexivity].
    cbv zeta.
    destruct (bulk client _ w1) as [[r|e] w2]; [|reflexivity].
    destruct (indices_refresh client index_name w2) as [[u|e] w3];
      [|reflexivity].
    simpl. rewrite <- !app_assoc. intros H1 H2.
    pose proof (events_since _ _ _ H1 H2) as H. discriminate H.
  - intros text evs. rewrite analyze_text_run.
    destruct (indices_analyze client index_name _ (world st))
      as [[response|e] w1]; [|reflexivity].
    simpl. intros H1 H2.
    pose proof (events_since _ _ _ H1 H2) as H. discriminate H.
Qed.

(** The index lifecycle methods do re-raise. *)
Lemma setup_index_reraises (st : state W) (e : exn) (w1 : W) :
  indices_exists client index_name (world st) = (Raise e, w1) ->
  _setup_index client index_name st
  = (Raise e, St w1 (trace st ++ [Ev (CExists index_name) true])).
Proof.
  intros H. unfold _setup_index, try_except, bind, ext, throw.
  rewrite H. reflexivity.
Qed.

(** ** Index setup *)

(** C6: when the backend reports the index as existing, [_setup_index]
    returns normally after that one existence check; it issues no other
    call, so it neither reads nor alters nor recreates the index.  The index
    is created, with the declared settings and mappings, only when the
    backend reports it absent. *)
Theorem setup_index_idempotent (st : state W) (present : bool) (w1 : W) :
  indices_exists client index_name (world st) = (Return present, w1) ->
  if present then
    _setup_index client index_name st
    = (Return tt, St w1 (trace st ++ [Ev (CExists index_name) false]))
  else
    _setup_index client index_name st
    = (fst (indices_create client index_name settings mappings w1),
       St (snd (indices_create client index_name settings mappings w1))
          (trace st ++
           [Ev (CExists index_name) false;
            Ev (CCreate index_name settings mappings)
               (is_raise
                  (fst (indices_create client index_name settings mappings
                          w1)))])).
Proof.
  intros H.
  unfold _setup_index, _create_index, try_except, bind, ext, throw, ret.
  rewrite H. destruct present; [reflexivity|].
  simpl.
  destruct (indices_create client index_name settings mappings w1)
    as [[u|e] w2]; simpl; rewrite <- app_assoc; reflexivity.
Qed.

End HandlerFacts.

(** ** The analyzer *)

(** C3: in the settings sent by [_create_index], the tokenizer declared
    with [decompound_mode = mixed] is registered as [nori_user_dict], while
    [nori_analyzer] names the tokenizer [nori_tokenizer], which is not
    declared; no analyzer uses [nori_user_dict].  The analyzer therefore runs
    the built-in tokenizer with the backend's default decompound mode,
    whatever that default is, and not the declared [mixed]. *)
Theorem nori_analyzer_ignores_declared_tokenizer :
  Analysis.analyzer_tokenizer ElasticsearchHandler.settings "nori_analyzer"
  = Some (JStr "nori_tokenizer")
  /\ Analysis.declared_tokenizer ElasticsearchHandler.settings "nori_tokenizer"
     = None
  /\ (exists t,
        Analysis.declared_tokenizer ElasticsearchHandler.settings
          "nori_user_dict" = Some t
        /\ path ["decompound_mode"] t = Some (JStr "mixed"))
  /\ Analysis.analyzers_using ElasticsearchHandler.settings "nori_user_dict"
     = []
  /\ (forall d,
        Analysis.decompound_mode d ElasticsearchHandler.settings
          "nori_analyzer" = Some d)
  /\ Analysis.decompound_mode "discard" ElasticsearchHandler.settings
       "nori_analyzer" <> Some "mixed".
Proof.
  repeat split; try reflexivity.
  - eexists. split; reflexivity.
  - discriminate.
Qed.

(** ** The category filter of [/search/] *)

Section FilterFacts.
Import Main Reference.
Variable relevance : json -> Doc -> option Q.

Lemma lookup_filter (keep : string -> bool) (k : string) (d : dict) :
  keep k = true ->
  lookup k (filter (fun kv => keep (fst kv)) d) = lookup k d.
Proof.
  intros Hk. induction d as [|[k' v] d IH]; [reflexivity|].
  simpl. destruct (String.eqb k k') eqn:E.
  - apply String.eqb_eq in E. subst k'. rewrite Hk. simpl.
    rewrite String.eqb_refl. reflexivity.
  - destruct (keep k'); simpl; [rewrite E|]; exact IH.
Qed.

Lemma map_outcome_in {A B} (f : A -> outcome B) (l : list A) (rs : list B) :
  map_outcome f l = Return rs ->
  forall r, In r rs -> exists x, In x l /\ f x = Return r.
Proof.
  revert rs. induction l as [|x l IH]; intros rs H r Hr; simpl in H.
  - injection H as <-. destruct Hr.
  - destruct (f x) as [y|e] eqn:Ex; [|discriminate].
    destruct (map_outcome f l) as [ys|e]; [|discriminate].
    injection H as <-. destruct Hr as [<-|Hr].
    + exists x. split; [left; reflexivity | exact Ex].
    + destruct (IH ys eq_refl r Hr) as [x' [Hin Hx']].
      exists x'. split; [right; exact Hin | exact Hx'].
Qed.

Lemma firstn_in {A} (n : nat) (l : list A) (x : A) :
  In x (firstn n l) -> In x l.
Proof.
  revert l. induction n as [|n IH]; intros [|y l] H; simpl in H;
    try contradiction.
  destruct H as [<-|H]; [left; reflexivity | right; apply IH, H].
Qed.

(** Every hit of the reference search comes from a stored document that
    matches the request. *)
Lemma run_search_hits (body : json) (docs : list Doc) (h : Hit) :
  In h (hits (run_search relevance body docs)) ->
  exists d, In d docs /\ doc_matches relevance body d = true
            /\ h = hit_of relevance body d.
Proof.
  unfold run_search. simpl. intros H.
  apply firstn_in in H.
  apply (Permutation_in _ (list_sort_reverse_perm _score _)) in H.
  apply in_map_iff in H. destruct H as [d [<- Hd]].
  apply filter_In in Hd. destruct Hd as [Hd Hm].
  exists d. auto.
Qed.

Lemma query_body_must (sq : SearchQuery) :
  clauses "must" (query_body sq)
  = clauses "must" (query_body (mkQuery (query sq) (size sq) None)).
Proof.
  unfold query_body. destruct (truthy (category sq)); reflexivity.
Qed.

Lemma query_body_filter (sq : SearchQuery) (c : string) :
  category sq = Some c -> c <> "" ->
  clauses "filter" (query_body sq)
  = [JDict [("term", JDict [("category", JStr c)])]].
Proof.
  intros Hc Hne. unfold query_body, truthy. rewrite Hc.
  apply String.eqb_neq in Hne. rewrite Hne. reflexivity.
Qed.

Lemma query_body_source (sq : SearchQuery) :
  path ["_source"] (query_body sq)
  = Some (JList [JStr "title"; JStr "content"; JStr "category"]).
Proof.
  unfold query_body. destruct (truthy (category sq)); reflexivity.
Qed.

(** What [search_documents] does, by the outcome of its call. *)
Lemma search_documents_run {W : Type} (es : Elasticsearch W)
    (sq : SearchQuery) (st : state W) :
  search_documents es sq st =
  match search es INDEX_NAME (query_body sq) (world st) with
  | (Raise e, w1) =>
      (Raise (HTTPException 500 (detail_of e)),
       St w1 (trace st ++ [Ev (CSearch INDEX_NAME (query_body sq)) true]))
  | (Return response, w1) =>
      (match map_outcome result_of_hit (hits response) with
       | Return rs =>
           Return {| total_of := total response;
                     results := rs;
                     took_of := took response |}
       | Raise e => Raise (HTTPException 500 (detail_of e))
       end,
       St w1 (trace st ++ [Ev (CSearch INDEX_NAME (query_body sq)) false]))
  end.
Proof.
  unfold search_documents, try_except, bind, ext, lift, ret, throw.
  destruct (search es INDEX_NAME (query_body sq) (world st))
    as [[response|e] w1]; simpl; [|reflexivity].
  destruct (map_outcome result_of_hit (hits response)); reflexivity.
Qed.

(** C8, as the code has it: for a request whose category is a non-empty
    string, run against the reference evaluation of [bool] queries, every
    returned result carries exactly that category, and its score is the score
    its document gets from the same request without a category. *)
Theorem category_filter_membership_only
    (docs : list Doc) (tr : list event) (sq : SearchQuery) (c : string)
    (resp : SearchResponse) (st' : state (list Doc)) :
  category sq = Some c -> c <> "" ->
  search_documents (Reference.es relevance) sq (St docs tr)
  = (Return resp, st') ->
  forall r, In r (results resp) ->
    category_of r = JStr c
    /\ exists d,
         In d docs /\ doc_id d = id r
         /\ score r
            = doc_score relevance
                (query_body (mkQuery (query sq) (size sq) None)) d.
Proof.
  intros Hc Hne Hrun r Hr.
  rewrite search_documents_run in Hrun.
  change (search (Reference.es relevance) INDEX_NAME (query_body sq)
            (world (St docs tr)))
    with (Return (run_search relevance (query_body sq) docs), docs) in Hrun.
  cbv beta iota in Hrun.
  destruct (map_outcome result_of_hit
              (hits (run_search relevance (query_body sq) docs)))
    as [rs|e] eqn:Hmap; [|discriminate].
  injection Hrun as <- _. simpl in Hr.
  destruct (map_outcome_in _ _ _ Hmap r Hr) as [h [Hh Hres]].
  destruct (run_search_hits _ _ _ Hh) as [d [Hd [Hm ->]]].
  unfold result_of_hit in Hres.
  destruct (getitem "title" _) as [t|e]; [|discriminate].
  destruct (getitem "content" _) as [ct|e]; [|discriminate].
  injection Hres as <-. simpl.
  split.
  - unfold doc_matches in Hm. apply andb_true_iff in Hm.
    destruct Hm as [_ Hf].
    rewrite (query_body_filter sq c Hc Hne) in Hf.
    simpl in Hf. rewrite andb_true_r in Hf.
    unfold dict_get, source_fields. rewrite query_body_source.
    rewrite (lookup_filter
               (fun k => existsb (fun f => match f with
                                           | JStr n => String.eqb n k
                                           | _ => false
                                           end)
                           [JStr "title"; JStr "content"; JStr "category"]))
      by reflexivity.
    destruct (lookup "category" (doc_source d)) as [[| | | |c'| |]|];
      try discriminate.
    apply String.eqb_eq in Hf. subst. reflexivity.
  - exists d. split; [exact Hd|]. split; [reflexivity|].
    unfold doc_score. rewrite query_body_must. reflexivity.
Qed.

End FilterFacts.

(** * Runs on concrete inputs *)

Section Runs.
Import ElasticsearchHandler.

(** A batch of three texts of which exactly one cannot be embedded: nothing
    is written, not even the other two, and the answer is [False]. *)
Lemma insert_embeddings_partial_counterexample :
  length (filter (Double.fails ["bad"]) Double.three_texts) = 1%nat
  /\ insert_embeddings Double.up (Double.emb ["bad"]) "idx"
       Double.three_texts Double.three_metas (St Double.empty [])
     = (Return false,
        St Double.empty [Ev (CEmbedDocuments Double.three_texts) true]).
Proof. split; reflexivity. Qed.

Lemma insert_embeddings_embedding_failure_witness :
  embed_documents (Double.emb ["bad"]) Double.three_texts Double.empty
  = (Raise (Exception "EmbeddingError"), Double.empty)
  /\ insert_embeddings Double.up (Double.emb ["bad"]) "idx"
       Double.three_texts Double.three_metas (St Double.empty [])
     = (Return false,
        St Double.empty
           ([] ++ [Ev (CEmbedDocuments Double.three_texts) true])).
Proof.
  split; [reflexivity|].
  apply (insert_embeddings_embedding_failure Double.up (Double.emb ["bad"])
           "idx" Double.three_texts Double.three_metas
           (St Double.empty []) (Exception "EmbeddingError") Double.empty).
  reflexivity.
Defined.

(** In BM25 mode the embedding call is made; when it fails the backend,
    which has hits to return, is never asked and the result is empty. *)
Lemma bm25_embedding_counterexample :
  search_similar Double.up (Double.emb ["q"]) "idx" "q" 5 "bm25"
    (St Double.empty [])
  = (Return [], St Double.empty [Ev (CEmbedQuery "q") true])
  /\ search_similar Double.up (Double.emb []) "idx" "q" 5 "bm25"
       (St Double.empty [])
     = (Return (map result_of_hit
                  [Double.hit "b" 3 "two"; Double.hit "c" 3 "three";
                   Double.hit "d" 2 "four"; Double.hit "a" 1 "one"]),
        St Double.empty
           [Ev (CEmbedQuery "q") false;
            Ev (CSearch "idx"
                  (search_body "bm25" "q" (Double.vector_of "q") 5)) false]).
Proof. split; reflexivity. Qed.

Lemma search_similar_always_embeds_witness :
  embed_query (Double.emb ["q"]) "q" Double.empty
  = (Raise (Exception "EmbeddingError"), Double.empty)
  /\ search_similar Double.up (Double.emb ["q"]) "idx" "q" 5 "bm25"
       (St Double.empty [])
     = (Return [], St Double.empty ([] ++ [Ev (CEmbedQuery "q") true])).
Proof.
  split; [reflexivity|].
  apply (proj2 (proj2 (search_similar_always_embeds Double.up
                         (Double.emb ["q"]) "idx" "q" 5 "bm25"
                         (St Double.empty [])))
           (Exception "EmbeddingError") Double.empty).
  reflexivity.
Defined.

(** With the backend unreachable, each of the three methods returns its
    empty value instead of raising. *)
Lemma swallowed_failures_counterexample :
  search_similar Double.unreachable (Double.emb []) "idx" "q" 5 "hybrid"
    (St Double.empty [])
  = (Return [],
     St Double.empty
        [Ev (CEmbedQuery "q") false;
         Ev (CSearch "idx"
               (search_body "hybrid" "q" (Double.vector_of "q") 5)) true])
  /\ fst (insert_embeddings Double.unreachable (Double.emb []) "idx"
            Double.three_texts Double.three_metas (St Double.empty []))
     = Return false
  /\ analyze_text Double.unreachable "idx" "text" (St Double.empty [])
     = (Return (JDict []),
        St Double.empty
           [Ev (CAnalyze "idx"
                  (JDict [("analyzer", JStr "nori_analyzer");
                          ("text", JStr "text")])) true]).
Proof. repeat split; reflexivity. Qed.

Lemma collaborator_failures_are_caught_witness :
  existsb ev_raised
    [Ev (CEmbedQuery "q") false;
     Ev (CSearch "idx" (search_body "hybrid" "q" (Double.vector_of "q") 5))
        true] = true
  /\ fst (search_similar Double.unreachable (Double.emb []) "idx" "q" 5
            "hybrid" (St Double.empty [])) = Return []
  /\ fst (insert_embeddings Double.unreachable (Double.emb []) "idx"
            Double.three_texts Double.three_metas (St Double.empty []))
     = Return false
  /\ fst (analyze_text Double.unreachable "idx" "text" (St Double.empty []))
     = Return (JDict []).
Proof.
  pose proof (collaborator_failures_are_caught Double.unreachable
                (Double.emb []) "idx" (St Double.empty [])) as [Hs [Hi Ha]].
  split; [reflexivity|]. split; [|split].
  - eapply (Hs "q" 5 "hybrid"); reflexivity.
  - eapply (Hi Double.three_texts Double.three_metas); reflexivity.
  - eapply (Ha "text"); reflexivity.
Defined.

Lemma search_similar_sorted_stable_witness :
  search_similar Double.up (Double.emb []) "idx" "q" 5 "hybrid"
    (St Double.empty [])
  = (Return (map result_of_hit
               [Double.hit "b" 3 "two"; Double.hit "c" 3 "three";
                Double.hit "d" 2 "four"; Double.hit "a" 1 "one"]),
     St Double.empty
        [Ev (CEmbedQuery "q") false;
         Ev (CSearch "idx"
               (search_body "hybrid" "q" (Double.vector_of "q") 5)) false])
  /\ forall s,
       filter (fun r => Qeq_bool (score r) s)
         (map result_of_hit
            [Double.hit "b" 3 "two"; Double.hit "c" 3 "three";
             Double.hit "d" 2 "four"; Double.hit "a" 1 "one"])
       = filter (fun r => Qeq_bool (score r) s)
           (map result_of_hit
              (backend_hits Double.up (Double.emb []) "idx" "q" 5 "hybrid"
                 (world (St Double.empty [])))).
Proof.
  split; [reflexivity|].
  exact (proj1 (proj2 (search_similar_sorted_stable Double.up (Double.emb [])
                         "idx" "q" 5 "hybrid" (St Double.empty []) _ _
                         eq_refl))).
Defined.

Lemma setup_index_idempotent_witness :
  indices_exists Double.up "idx" (Double.mkMem ["idx"] [] [])
  = (Return true, Double.mkMem ["idx"] [] [])
  /\ _setup_index Double.up "idx" (St (Double.mkMem ["idx"] [] []) [])
     = (Return tt,
        St (Double.mkMem ["idx"] [] []) ([] ++ [Ev (CExists "idx") false])).
Proof.
  split; [reflexivity|].
  apply (setup_index_idempotent Double.up "idx"
           (St (Double.mkMem ["idx"] [] []) []) true
           (Double.mkMem ["idx"] [] [])).
  reflexivity.
Defined.

(** On the in-memory backend: whatever indices exist, two calls in a row
    both return normally, the second leaves the backend as the first left
    it, and the index is listed exactly as often as after the first call. *)
Lemma setup_index_twice (w : Double.Mem) (tr : list event) :
  exists s1 s2,
    _setup_index Double.up "idx" (St w tr) = (Return tt, s1)
    /\ _setup_index Double.up "idx" s1 = (Return tt, s2)
    /\ world s2 = world s1
    /\ trace s2 = trace s1 ++ [Ev (CExists "idx") false].
Proof.
  unfold _setup_index, _create_index, try_except, bind, ext, throw, ret.
  unfold Double.up, Double.es, Double.guarded. cbn [indices_exists
    indices_create world trace].
  destruct (Double.has_index "idx" w) eqn:E.
  - eexists; eexists. split; [reflexivity|]. cbn [world trace].
    rewrite E. auto.
  - cbn [world trace]. rewrite E.
    eexists; eexists. split; [reflexivity|]. cbn [world trace].
    unfold Double.has_index at 1. cbn [Double.indices].
    rewrite existsb_app. simpl. rewrite orb_true_r. auto.
Qed.

Lemma vector_request_candidates_witness :
  0 < 5
  /\ path ["knn"; "k"] (search_body "vector" "q" [1 # 2]%Q 5) = Some (JInt 5)
  /\ path ["knn"; "num_candidates"] (search_body "vector" "q" [1 # 2]%Q 5)
     = Some (JInt 50).
Proof.
  assert (H : 0 < 5) by lia.
  split; [exact H|].
  destruct (vector_request_candidates "q" [1 # 2]%Q 5 H) as [Hk [_ _]].
  split; [exact Hk | reflexivity].
Defined.

Lemma search_similar_default_is_hybrid_witness :
  "hybird" <> "vector" /\ "hybird" <> "bm25"
  /\ embed_query (Double.emb []) "q" Double.empty
     = (Return (Double.vector_of "q"), Double.empty)
  /\ path ["query"; "bool"; "should"]
       (search_body "hybird" "q" (Double.vector_of "q") 5)
     = Some (JList [
         JDict [
           ("match", JDict [
             ("content", JDict [
               ("query", JStr "q");
               ("analyzer", JStr "nori_analyzer");
               ("boost", JFloat 1)])])]])
  /\ path ["knn"; "num_candidates"]
       (search_body "hybird" "q" (Double.vector_of "q") 5)
     = Some (JInt 50)
  /\ trace (snd (search_similar Double.up (Double.emb []) "idx" "q" 5
                   "hybird" (St Double.empty [])))
     = [Ev (CEmbedQuery "q") false;
        Ev (CSearch "idx" (search_body "hybird" "q" (Double.vector_of "q") 5))
           false]
  /\ fst (search_similar Double.up (Double.emb []) "idx" "q" 5 "hybird"
            (St Double.empty []))
     = Return (map result_of_hit
                 [Double.hit "b" 3 "two"; Double.hit "c" 3 "three";
                  Double.hit "d" 2 "four"; Double.hit "a" 1 "one"])
  /\ search_similar Double.up (Double.emb []) "idx" "q" 5 "hybird"
       (St Double.empty [])
     = search_similar Double.up (Double.emb []) "idx" "q" 5 "hybrid"
         (St Double.empty []).
Proof.
  assert (Hv : "hybird" <> "vector") by discriminate.
  assert (Hb : "hybird" <> "bm25") by discriminate.
  destruct (search_similar_default_is_hybrid Double.up (Double.emb []) "idx"
              "q" 5 "hybird" (St Double.empty []) Hv Hb)
    as [Hbody [Hrun [_ [Hsame _]]]].
  destruct (Hrun (Double.vector_of "q") Double.empty eq_refl)
    as [Htrace [_ Hres]].
  split; [exact Hv|]. split; [exact Hb|]. split; [reflexivity|].
  split; [rewrite Hbody; reflexivity|].
  split; [rewrite Hbody; reflexivity|].
  split; [exact Htrace|]. split; [rewrite Hres; reflexivity | exact Hsame].
Defined.

Lemma insert_embeddings_refreshes_witness :
  insert_embeddings Double.up (Double.emb []) "idx" ["a"; "c"]
    [JDict []; JDict []] (St Double.empty [])
  = (Return true,
     St (Double.mkMem [] []
           (map (action "idx")
              [("a", Double.vector_of "a", JDict []);
               ("c", Double.vector_of "c", JDict [])]))
        [Ev (CEmbedDocuments ["a"; "c"]) false;
         Ev (CBulk (map (action "idx")
                      [("a", Double.vector_of "a", JDict []);
                       ("c", Double.vector_of "c", JDict [])])) false;
         Ev (CRefresh "idx") false])
  /\ exists embs w1 r w2,
       embed_documents (Double.emb []) ["a"; "c"] Double.empty
       = (Return embs, w1)
       /\ bulk Double.up
            (map (action "idx") (zip3 ["a"; "c"] embs [JDict []; JDict []]))
            w1 = (Return r, w2)
       /\ Double.visible w2 = [].
Proof.
  split; [reflexivity|].
  destruct (insert_embeddings_refreshes Double.up (Double.emb []) "idx"
              ["a"; "c"] [JDict []; JDict []] (St Double.empty []) _
              eq_refl) as [embs [w1 [r [w2 [He [Hb _]]]]]].
  exists embs, w1, r, w2. split; [exact He|]. split; [exact Hb|].
  cbn in He. injection He as <- <-.
  cbv in Hb. injection Hb as H1 H2. rewrite <- H2. reflexivity.
Defined.

(** After a call that returned [True] on the in-memory backend, every
    document of the batch is visible and none is pending. *)
Lemma insert_embeddings_visible (contents : list string) (metas : list json)
    (w : Double.Mem) (tr : list event) (st' : state Double.Mem) :
  insert_embeddings Double.up (Double.emb []) "idx" contents metas (St w tr)
  = (Return true, st') ->
  Double.pending (world st') = []
  /\ forall a,
       In a (map (action "idx")
               (zip3 contents (map Double.vector_of contents) metas)) ->
       In a (Double.visible (world st')).
Proof.
  intros H. rewrite insert_embeddings_run in H.
  assert (Hf : existsb (Double.fails []) contents = false)
    by (clear; induction contents as [|t l IH]; [reflexivity | exact IH]).
  unfold Double.emb, Double.up, Double.es, Double.guarded in H.
  cbn [embed_documents bulk indices_refresh world trace] in H.
  rewrite Hf in H. cbv beta iota zeta in H.
  injection H as <-. cbn.
  split; [reflexivity|].
  intros a Ha. apply in_or_app. right. apply in_or_app. right. exact Ha.
Qed.

(** A request whose category is the empty string carries no filter, and a
    document of another category is returned. *)
Lemma empty_category_counterexample :
  Main.category (Main.mkQuery "python" (Some 10) (Some "")) = Some ""
  /\ path ["query"; "bool"; "filter"]
       (Main.query_body (Main.mkQuery "python" (Some 10) (Some ""))) = None
  /\ exists resp st' r,
       Main.search_documents (Reference.es Sample.relevance)
         (Main.mkQuery "python" (Some 10) (Some "")) (St Sample.docs [])
       = (Return resp, st')
       /\ In r (Main.results resp)
       /\ Main.category_of r = JStr "programming"
       /\ Main.category_of r <> JStr "".
Proof.
  split; [reflexivity|]. split; [reflexivity|].
  eexists; eexists; eexists.
  split; [reflexivity|].
  split; [left; reflexivity|].
  split; [reflexivity | discriminate].
Qed.

Lemma category_filter_membership_only_witness :
  Main.category (Main.mkQuery "python" (Some 10) (Some "programming"))
  = Some "programming"
  /\ "programming" <> ""
  /\ exists resp st',
       Main.search_documents (Reference.es Sample.relevance)
         (Main.mkQuery "python" (Some 10) (Some "programming"))
         (St Sample.docs [])
       = (Return resp, st')
       /\ length (Main.results resp) = 1%nat
       /\ forall r, In r (Main.results resp) ->
            Main.category_of r = JStr "programming".
Proof.
  assert (Hne : "programming" <> "") by discriminate.
  split; [reflexivity|]. split; [exact Hne|].
  eexists; eexists.
  split; [reflexivity|]. split; [reflexivity|].
  intros r Hr.
  exact (proj1 (category_filter_membership_only Sample.relevance Sample.docs
                  [] (Main.mkQuery "python" (Some 10) (Some "programming"))
                  "programming" _ _ eq_refl Hne eq_refl r Hr)).
Defined.

End Runs.

(** * Further properties *)

(** ** Sorting a list that is already in order *)

Section MoreSortFacts.
Context {A : Type}.
Variable key : A -> Q.

Lemma strongly_sorted_flip_rev (R : A -> A -> Prop) (l : list A) :
  StronglySorted R l -> StronglySorted (fun a b => R b a) (rev l).
Proof.
  induction 1 as [|y l Hl IH Hy]; simpl.
  - constructor.
  - apply strongly_sorted_snoc; [exact IH|].
    apply Forall_rev. exact Hy.
Qed.

Lemma sort_ascending_fixed (l : list A) :
  StronglySorted (fun a b => (key a <= key b)%Q) l ->
  sort_ascending key l = l.
Proof.
  induction 1 as [|x l Hl IH Hx]; [reflexivity|].
  simpl. rewrite IH.
  destruct l as [|y l']; [reflexivity|].
  simpl. inversion Hx as [|? ? Hxy _]; subst.
  apply Qle_bool_iff in Hxy. rewrite Hxy. reflexivity.
Qed.

Lemma list_sort_reverse_fixed (l : list A) :
  StronglySorted (fun a b => (key b <= key a)%Q) l ->
  list_sort_reverse key l = l.
Proof.
  intros H. unfold list_sort_reverse.
  rewrite sort_ascending_fixed.
  - apply rev_involutive.
  - exact (strongly_sorted_flip_rev _ l H).
Qed.

End MoreSortFacts.

Lemma descending_transitive :
  Relations_1.Transitive (fun a b : Hit => (_score b <= _score a)%Q).
Proof.
  intros a b c Hab Hbc. eapply Qle_trans; eassumption.
Qed.

Lemma results_strongly_sorted (hs : list Hit) :
  StronglySorted (fun a b => (_score b <= _score a)%Q) hs ->
  StronglySorted
    (fun a b => (ElasticsearchHandler.score b <= ElasticsearchHandler.score a)%Q)
    (map ElasticsearchHandler.result_of_hit hs).
Proof.
  induction 1 as [|h hs Hs IH Hh]; simpl; constructor; [exact IH|].
  apply Forall_map. exact Hh.
Qed.

Lemma zip3_length {A B C} (a : list A) (b : list B) (c : list C) :
  length (ElasticsearchHandler.zip3 a b c)
  = Nat.min (length a) (Nat.min (length b) (length c)).
Proof.
  revert b c. induction a as [|x a IH]; intros [|y b] [|z c];
    try reflexivity.
  simpl. rewrite IH. reflexivity.
Qed.

Lemma zip3_first {A B C} (a : list A) (b : list B) (c : list C) :
  map (fun t => fst (fst t)) (ElasticsearchHandler.zip3 a b c)
  = firstn (length (ElasticsearchHandler.zip3 a b c)) a.
Proof.
  revert b c. induction a as [|x a IH]; intros [|y b] [|z c];
    try reflexivity.
  simpl. rewrite IH. reflexivity.
Qed.

Lemma map_outcome_raises {A B} (f : A -> outcome B) (l : list A) (x : A)
    (e : exn) :
  In x l -> f x = Raise e -> exists e', map_outcome f l = Raise e'.
Proof.
  induction l as [|y l IH]; intros Hin Hx; [destruct Hin|].
  simpl. destruct (f y) as [v|e0] eqn:Ey; [|eexists; reflexivity].
  destruct Hin as [->|Hin]; [congruence|].
  destruct (IH Hin Hx) as [e' ->]. eexists; reflexivity.
Qed.

Lemma map_outcome_forall2 {A B} (f : A -> outcome B) (l : list A)
    (rs : list B) :
  map_outcome f l = Return rs -> Forall2 (fun x r => f x = Return r) l rs.
Proof.
  revert rs. induction l as [|x l IH]; intros rs H; simpl in H.
  - injection H as <-. constructor.
  - destruct (f x) as [y|e] eqn:Ex; [|discriminate].
    destruct (map_outcome f l) as [ys|e]; [|discriminate].
    injection H as <-. constructor; [exact Ex | apply IH; reflexivity].
Qed.

(** The raising subscripts and the optional path agree. *)
Lemma getpath_path (ks : list string) (j v : json) :
  getpath ks j = Return v <-> path ks j = Some v.
Proof.
  revert j. induction ks as [|k ks IH]; intros j; simpl.
  - split; intros H; injection H as <-; reflexivity.
  - destruct j; simpl; try (split; discriminate).
    destruct (lookup k d); [apply IH | split; discriminate].
Qed.

Lemma getpath_none (ks : list string) (j : json) :
  path ks j = None -> exists e, getpath ks j = Raise e.
Proof.
  intros H. destruct (getpath ks j) as [v|e] eqn:E; [|eexists; reflexivity].
  apply getpath_path in E. congruence.
Qed.

(** ** More on the handler *)

Section MoreHandlerFacts.
Context {W : Type}.
Variable client : Elasticsearch W.
Variable embeddings : OpenAIEmbeddings W.
Variable stats_api : ElasticsearchStats W.
Variable index_name : string.

Import ElasticsearchHandler.

(** X1: a call of [insert_embeddings] that returns [True] has written, in
    one bulk call, as many documents as the shortest of the contents, the
    embeddings and the metadata list has entries; they are the leading
    contents, in order.  Surplus contents are dropped without notice. *)
Theorem insert_embeddings_writes_common_prefix
    (contents : list string) (metas : list json) (st st' : state W) :
  insert_embeddings client embeddings index_name contents metas st
  = (Return true, st') ->
  exists embs actions,
    fst (embed_documents embeddings contents (world st)) = Return embs
    /\ trace st' = trace st ++ [Ev (CEmbedDocuments contents) false;
                                Ev (CBulk actions) false;
                                Ev (CRefresh index_name) false]
    /\ length actions
       = Nat.min (length contents) (Nat.min (length embs) (length metas))
    /\ map (path ["_source"; "content"]) actions
       = map (fun c => Some (JStr c)) (firstn (length actions) contents).
Proof.
  rewrite insert_embeddings_run.
  destruct (embed_documents embeddings contents (world st))
    as [[embs|e] w1]; [|discriminate].
  cbv zeta.
  destruct (bulk client _ w1) as [[r|e] w2]; [|discriminate].
  destruct (indices_refresh client index_name w2) as [[u|e] w3];
    [|discriminate].
  intros H. injection H as <-.
  exists embs, (map (action index_name) (zip3 contents embs metas)).
  split; [reflexivity|].
  split; [simpl; rewrite <- !app_assoc; reflexivity|].
  rewrite !length_map.
  split; [apply zip3_length|].
  rewrite <- zip3_first, !map_map.
  apply map_ext. intros [[c v] m]. reflexivity.
Qed.

(** X2: [insert_embeddings] refreshes the index only after a bulk write
    that did not raise; a failed embedding or a failed write is never
    followed by a refresh. *)
Theorem refresh_only_after_bulk
    (contents : list string) (metas : list json) (st : state W)
    (evs : list event) (b : bool) :
  trace (snd (insert_embeddings client embeddings index_name contents metas
                st)) = trace st ++ evs ->
  In (Ev (CRefresh index_name) b) evs ->
  exists actions,
    evs = [Ev (CEmbedDocuments contents) false; Ev (CBulk actions) false;
           Ev (CRefresh index_name) b].
Proof.
  rewrite insert_embeddings_run.
  destruct (embed_documents embeddings contents (world st))
    as [[embs|e] w1].
  - cbv zeta.
    destruct (bulk client _ w1) as [[r|e] w2].
    + destruct (indices_refresh client index_name w2) as [[u|e] w3];
        simpl; rewrite <- !app_assoc; intros H; apply app_inv_head in H;
        subst evs; simpl; intros [H|[H|[H|[]]]]; try discriminate;
        injection H as <-; eexists; reflexivity.
    + simpl. rewrite <- !app_assoc. intros H. apply app_inv_head in H.
      subst evs. simpl. intros [H|[H|[]]]; discriminate.
  - simpl. intros H. apply app_inv_head in H. subst evs.
    simpl. intros [H|[]]; discriminate.
Qed.

(** X3: when the backend returns its hits already in non-increasing score
    order, [search_similar] returns them in exactly that order: the sort
    moves nothing. *)
Theorem search_similar_keeps_sorted_response
    (q : string) (k : Z) (ty : string) (st : state W)
    (v : embedding) (w1 w2 : W) (r : Response) :
  embed_query embeddings q (world st) = (Return v, w1) ->
  search client index_name (search_body ty q v k) w1 = (Return r, w2) ->
  Sorted (fun a b => (_score b <= _score a)%Q) (hits r) ->
  fst (search_similar client embeddings index_name q k ty st)
  = Return (map result_of_hit (hits r)).
Proof.
  intros He Hs Hsorted.
  rewrite search_similar_run, He. cbv zeta. rewrite Hs. simpl.
  rewrite list_sort_reverse_fixed; [reflexivity|].
  apply results_strongly_sorted.
  apply Sorted_StronglySorted; [exact descending_transitive | exact Hsorted].
Qed.

(** X4: a non-empty answer of [analyze_text] carries the analysed text, the
    tokens of the backend's response in order, and a count equal to the
    number of those tokens; every other outcome is the empty dict. *)
Theorem analyze_text_count_matches_tokens
    (text : string) (st st' : state W) (j : json) :
  analyze_text client index_name text st = (Return j, st') ->
  j = JDict []
  \/ exists response w1 tokens,
       indices_analyze client index_name
         (JDict [("analyzer", JStr "nori_analyzer"); ("text", JStr text)])
         (world st) = (Return response, w1)
       /\ tokens_of response = Return tokens
       /\ j = JDict [("original", JStr text);
                     ("tokens", JList tokens);
                     ("token_count", JInt (Z.of_nat (length tokens)))].
Proof.
  rewrite analyze_text_run. cbv zeta.
  destruct (indices_analyze client index_name _ (world st))
    as [[response|e] w1].
  - destruct (tokens_of response) as [tokens|e] eqn:Ht;
      intros H; injection H as <- _; [right | left; reflexivity].
    exists response, w1, tokens. auto.
  - intros H; injection H as <- _. left; reflexivity.
Qed.

(** X5: one entry without a [token] key among the tokens of the response
    empties the whole analysis: [analyze_text] returns the empty dict, not
    the tokens that were well formed. *)
Theorem analyze_text_malformed_token
    (text : string) (st : state W) (response : json) (w1 : W)
    (entries : list json) (entry : json) (e : exn) :
  indices_analyze client index_name
    (JDict [("analyzer", JStr "nori_analyzer"); ("text", JStr text)])
    (world st) = (Return response, w1) ->
  getitem "tokens" response = Return (JList entries) ->
  In entry entries ->
  getitem "token" entry = Raise e ->
  fst (analyze_text client index_name text st) = Return (JDict []).
Proof.
  intros Ha Ht Hin He.
  rewrite analyze_text_run. cbv zeta. rewrite Ha.
  unfold tokens_of. rewrite Ht.
  destruct (map_outcome_raises _ _ _ _ Hin He) as [e' ->].
  reflexivity.
Qed.

(** X6: [get_index_stats] never raises.  It returns the three-entry dict
    exactly when the statistics call returns and the response holds both
    the document count and the store size of this index; in every other
    case it returns the empty dict. *)
Theorem get_index_stats_characterised (st : state W) :
  (exists stats w1 c s,
     indices_stats stats_api index_name (world st) = (Return stats, w1)
     /\ path ["indices"; index_name; "total"; "docs"; "count"] stats = Some c
     /\ path ["indices"; index_name; "total"; "store"; "size_in_bytes"] stats
        = Some s
     /\ Lifecycle.get_index_stats stats_api index_name st
        = (Return (JDict [("document_count", c); ("store_size", s);
                          ("index_name", JStr index_name)]),
           St w1 (trace st)))
  \/ (fst (Lifecycle.get_index_stats stats_api index_name st)
      = Return (JDict [])
      /\ forall stats w1,
           indices_stats stats_api index_name (world st) = (Return stats, w1)
           -> path ["indices"; index_name; "total"; "docs"; "count"] stats
              = None
              \/ path ["indices"; index_name; "total"; "store";
                       "size_in_bytes"] stats = None).
Proof.
  unfold Lifecycle.get_index_stats, try_except, bind, run, lift, ret.
  destruct (indices_stats stats_api index_name (world st))
    as [[stats|e] w1].
  - destruct (path ["indices"; index_name; "total"; "docs"; "count"] stats)
      as [c|] eqn:Hc.
    + destruct (path ["indices"; index_name; "total"; "store";
                      "size_in_bytes"] stats) as [s|] eqn:Hs.
      * left. exists stats, w1, c, s.
        pose proof (proj2 (getpath_path _ _ _) Hc) as Gc.
        pose proof (proj2 (getpath_path _ _ _) Hs) as Gs.
        rewrite Gc, Gs. auto.
      * right. pose proof (proj2 (getpath_path _ _ _) Hc) as Gc.
        destruct (getpath_none _ _ Hs) as [e He]. rewrite Gc, He.
        split; [reflexivity|].
        intros stats' w1' H. injection H as <- _. right; exact Hs.
    + right. destruct (getpath_none _ _ Hc) as [e He]. rewrite He.
      split; [reflexivity|].
      intros stats' w1' H. injection H as <- _. left; exact Hc.
  - right. split; [reflexivity|]. intros stats w1' H. discriminate.
Qed.

(** X7: [_connect] returns normally exactly when the ping answers [True];
    a ping that answers [False] raises, as a ping that raises does. *)
Theorem connect_returns_iff_ping_true (st : state W) :
  fst (_connect client st) = Return tt
  <-> fst (ping client (world st)) = Return true.
Proof.
  unfold _connect, try_except, bind, ext, throw, ret.
  destruct (ping client (world st)) as [[[|]|e] w1]; simpl;
    split; intros H; try reflexivity; discriminate.
Qed.

(** X8: when the constructor's two calls return normally, the ping
    answered [True] and the index is there: the backend reported it present,
    or reported it absent and then created it with the declared settings and
    mappings without raising. *)
Theorem init_success_index_ready (st st' : state W) :
  Lifecycle.__init__ client index_name st = (Return tt, st') ->
  exists w1 present w2,
    ping client (world st) = (Return true, w1)
    /\ indices_exists client index_name w1 = (Return present, w2)
    /\ if present : bool then
         st' = St w2 (trace st ++ [Ev CPing false;
                                   Ev (CExists index_name) false])
       else
         indices_create client index_name settings mappings w2
         = (Return tt, world st')
         /\ trace st' = trace st ++ [Ev CPing false;
                                     Ev (CExists index_name) false;
                                     Ev (CCreate index_name settings mappings)
                                        false].
Proof.
  unfold Lifecycle.__init__, _connect, _setup_index, _create_index,
    try_except, bind, ext, throw, ret.
  destruct (ping client (world st)) as [[[|]|e] w1]; simpl;
    try discriminate.
  destruct (indices_exists client index_name w1) as [[present|e] w2] eqn:Hx;
    simpl; [|discriminate].
  destruct present.
  - intros H. injection H as <-. exists w1, true, w2.
    rewrite <- app_assoc. auto.
  - simpl.
    destruct (indices_create client index_name settings mappings w2)
      as [[[]|e] w3] eqn:Hc; simpl; [|discriminate].
    intros H. injection H as <-. exists w1, false, w2. simpl.
    rewrite <- !app_assoc. auto.
Qed.

(** X9: when the ping does not answer [True], the constructor raises and
    has issued no call about the index: the ping is its only call. *)
Theorem init_stops_at_failed_ping (st : state W) :
  fst (ping client (world st)) <> Return true ->
  (exists e, fst (Lifecycle.__init__ client index_name st) = Raise e)
  /\ trace (snd (Lifecycle.__init__ client index_name st))
     = trace st ++ [Ev CPing (is_raise (fst (ping client (world st))))].
Proof.
  unfold Lifecycle.__init__, _connect, try_except, bind, ext, throw, ret.
  destruct (ping client (world st)) as [[[|]|e] w1]; simpl; intros H.
  - contradiction H; reflexivity.
  - split; [eexists|]; reflexivity.
  - split; [eexists|]; reflexivity.
Qed.

(** X10: an exception raised by [_setup_index] is the very exception the
    backend raised, from the existence check or from the creation of the
    absent index. *)
Theorem setup_index_raises_backend_exception
    (st st' : state W) (e : exn) :
  _setup_index client index_name st = (Raise e, st') ->
  (exists w1, indices_exists client index_name (world st) = (Raise e, w1))
  \/ (exists w1 w2,
        indices_exists client index_name (world st) = (Return false, w1)
        /\ indices_create client index_name settings mappings w1
           = (Raise e, w2)).
Proof.
  unfold _setup_index, _create_index, try_except, bind, ext, throw, ret.
  destruct (indices_exists client index_name (world st))
    as [[[|]|e0] w1]; simpl.
  - discriminate.
  - destruct (indices_create client index_name settings mappings w1)
      as [[u|e1] w2] eqn:Hc; simpl; [discriminate|].
    intros H. injection H as <- _. right. exists w1, w2. auto.
  - intros H. injection H as <- _. left. exists w1. reflexivity.
Qed.


End MoreHandlerFacts.

(** ** The REST routes *)

Lemma try_except_only {W A : Type} (m : M W A) (h : exn -> exn)
    (st st' : state W) (e : exn) :
  try_except m (fun e0 => throw (h e0)) st = (Raise e, st') ->
  exists e0, e = h e0.
Proof.
  unfold try_except, throw.
  destruct (m st) as [[a|e0] st0]; [discriminate|].
  intros H. injection H as <- _. exists e0. reflexivity.
Qed.

Section RouteFacts.
Context {W : Type}.
Variable es : Elasticsearch W.
Variable es_docs : Routes.ElasticsearchDocs W.

(** X12: whatever goes wrong in [search_documents], [add_document],
    [delete_document] or [get_document_count], the only exception that
    leaves the route is an HTTP exception with status 500. *)
Theorem routes_raise_only_http_500 (st st' : state W) (e : exn) :
  (forall sq,
     Main.search_documents es sq st = (Raise e, st') ->
     exists detail, e = HTTPException 500 detail)
  /\ (forall document,
        Routes.add_document es es_docs document st = (Raise e, st') ->
        exists detail, e = HTTPException 500 detail)
  /\ (forall doc_id,
        Routes.delete_document es es_docs doc_id st = (Raise e, st') ->
        exists detail, e = HTTPException 500 detail)
  /\ (Routes.get_document_count es_docs st = (Raise e, st') ->
      exists detail, e = HTTPException 500 detail).
Proof.
  repeat split.
  - intros sq H. unfold Main.search_documents in H.
    apply try_except_only in H. destruct H as [e0 ->]. eexists; reflexivity.
  - intros document H. unfold Routes.add_document in H.
    apply try_except_only in H. destruct H as [e0 ->]. eexists; reflexivity.
  - intros doc_id H. unfold Routes.delete_document in H.
    apply try_except_only in H. destruct H as [e0 ->]. eexists; reflexivity.
  - intros H. unfold Routes.get_document_count in H.
    apply try_except_only in H. destruct H as [e0 ->]. eexists; reflexivity.
Qed.

(** X13: [startup_event] never raises, whatever the backend does; and it
    asks for the creation of the index only after the backend answered that
    the index does not exist. *)
Theorem startup_event_never_raises (st : state W) :
  fst (Routes.startup_event es st) = Return tt
  /\ forall evs i s m b,
       trace (snd (Routes.startup_event es st)) = trace st ++ evs ->
       In (Ev (CCreate i s m) b) evs ->
       fst (indices_exists es Main.INDEX_NAME (world st)) = Return false
       /\ i = Main.INDEX_NAME
       /\ s = Routes.body_part "settings" Routes.mapping
       /\ m = Routes.body_part "mappings" Routes.mapping.
Proof.
  unfold Routes.startup_event, try_except, bind, ext, ret.
  destruct (indices_exists es Main.INDEX_NAME (world st))
    as [[[|]|e] w1]; cbn [fst snd world trace is_raise].
  - split; [reflexivity|]. intros evs i s m b H. apply app_inv_head in H.
    subst evs. intros [H|[]]; discriminate.
  - destruct (indices_create es Main.INDEX_NAME _ _ w1) as [[u|e] w2];
      cbn [fst snd world trace is_raise].
    + split; [destruct u; reflexivity|].
      intros evs i s m b H. rewrite <- app_assoc in H.
      apply app_inv_head in H. subst evs.
      intros [H|[H|[]]]; [discriminate|]. injection H as <- <- <- _. auto.
    + split; [reflexivity|].
      intros evs i s m b H. rewrite <- app_assoc in H.
      apply app_inv_head in H. subst evs.
      intros [H|[H|[]]]; [discriminate|]. injection H as <- <- <- _. auto.
  - split; [reflexivity|]. intros evs i s m b H. apply app_inv_head in H.
    subst evs. intros [H|[]]; discriminate.
Qed.

(** X14: a successful [search_documents] answers with one result per hit of
    the backend, in the backend's order and with the backend's ids and
    scores; nothing is sorted again, dropped or added, and the total and the
    time are the backend's. *)
Theorem search_documents_keeps_backend_order
    (sq : Main.SearchQuery) (st st' : state W) (resp : Main.SearchResponse) :
  Main.search_documents es sq st = (Return resp, st') ->
  exists response,
    fst (search es Main.INDEX_NAME (Main.query_body sq) (world st))
    = Return response
    /\ Main.total_of resp = total response
    /\ Main.took_of resp = took response
    /\ map Main.id (Main.results resp) = map _id (hits response)
    /\ map Main.score (Main.results resp) = map _score (hits response)
    /\ Forall2
         (fun h r =>
            lookup "title" (_source h) = Some (Main.title r)
            /\ lookup "content" (_source h) = Some (Main.content r)
            /\ Main.category_of r = dict_get "category" (_source h))
         (hits response) (Main.results resp).
Proof.
  rewrite search_documents_run.
  destruct (search es Main.INDEX_NAME (Main.query_body sq) (world st))
    as [[response|e] w1]; [|discriminate].
  destruct (map_outcome Main.result_of_hit (hits response)) as [rs|e] eqn:Hm;
    [|discriminate].
  intros H. injection H as <- _. exists response.
  apply map_outcome_forall2 in Hm. simpl.
  split; [reflexivity|]. split; [reflexivity|]. split; [reflexivity|].
  assert (Hall : Forall2
            (fun h r =>
               Main.id r = _id h /\ Main.score r = _score h
               /\ lookup "title" (_source h) = Some (Main.title r)
               /\ lookup "content" (_source h) = Some (Main.content r)
               /\ Main.category_of r = dict_get "category" (_source h))
            (hits response) rs).
  { eapply Forall2_impl; [|exact Hm].
    intros h r Hr. unfold Main.result_of_hit, getitem in Hr.
    destruct (lookup "title" (_source h)) as [t|]; [|discriminate].
    destruct (lookup "content" (_source h)) as [c|]; [|discriminate].
    injection Hr as <-. simpl. auto. }
  clear Hm. induction Hall as [|h r hs rs' [Hi [Hs [Ht [Hc Hk]]]] Hall IH].
  - repeat split; constructor.
  - destruct IH as [IH1 [IH2 IH3]]. simpl.
    rewrite Hi, Hs, IH1, IH2. repeat split. constructor; auto.
Qed.

(** X15: one hit whose source lacks the title or the content fails the
    whole search: [search_documents] answers HTTP 500 and returns none of
    the other hits. *)
Theorem search_documents_incomplete_hit
    (sq : Main.SearchQuery) (st : state W) (response : Response) (w1 : W)
    (h : Hit) :
  search es Main.INDEX_NAME (Main.query_body sq) (world st)
  = (Return response, w1) ->
  In h (hits response) ->
  lookup "title" (_source h) = None \/ lookup "content" (_source h) = None ->
  exists detail,
    fst (Main.search_documents es sq st) = Raise (HTTPException 500 detail).
Proof.
  intros Hs Hin Hmiss.
  rewrite search_documents_run, Hs.
  assert (Hr : exists e, Main.result_of_hit h = Raise e).
  { unfold Main.result_of_hit, getitem.
    destruct (lookup "title" (_source h)) as [t|];
      [|eexists; reflexivity].
    destruct (lookup "content" (_source h)) as [c|];
      [|eexists; reflexivity].
    destruct Hmiss; discriminate. }
  destruct Hr as [e He].
  destruct (map_outcome_raises _ _ _ _ Hin He) as [e' ->].
  eexists; reflexivity.
Qed.

(** X16: once the index call of [add_document] has returned, the route
    goes on to the refresh and issues no call that would undo the write: the
    world it leaves is the one the refresh leaves behind, also when the route
    then answers HTTP 500; and it answers normally exactly when the refresh
    returns and the response of the index call has a [result]. *)
Theorem add_document_write_stays
    (document : Routes.Document) (st : state W) (response : json) (w1 : W) :
  Routes.index es_docs Main.INDEX_NAME (Routes.id document)
    (Routes.document_body document) (world st) = (Return response, w1) ->
  world (snd (Routes.add_document es es_docs document st))
  = snd (indices_refresh es Main.INDEX_NAME w1)
  /\ ((exists j, fst (Routes.add_document es es_docs document st) = Return j)
      <-> (exists u result,
             fst (indices_refresh es Main.INDEX_NAME w1) = Return u
             /\ getitem "result" response = Return result)).
Proof.
  intros Hi.
  unfold Routes.add_document, try_except, bind, run, ext, lift, ret, throw.
  rewrite Hi. cbn [world trace].
  destruct (indices_refresh es Main.INDEX_NAME w1) as [[u|e] w2];
    cbn [fst snd world trace is_raise].
  - destruct (getitem "result" response) as [result|e];
      cbn [fst snd world].
    + split; [reflexivity|]. split; intros _; eexists; eauto.
    + split; [reflexivity|].
      split; [intros [j H]; discriminate | intros [u' [r [_ H]]]; discriminate].
  - split; [reflexivity|].
    split; [intros [j H]; discriminate | intros [u' [r [H _]]]; discriminate].
Qed.


End RouteFacts.

(** * Further runs on concrete inputs *)

Section MoreRuns.
Import ElasticsearchHandler.

Lemma insert_embeddings_writes_common_prefix_witness :
  fst (insert_embeddings Double.up (Double.emb []) "idx" Double.three_texts
         [JDict []; JDict []] (St Double.empty [])) = Return true
  /\ exists embs actions,
       fst (embed_documents (Double.emb []) Double.three_texts Double.empty)
       = Return embs
       /\ length embs = 3%nat
       /\ length actions = 2%nat
       /\ map (path ["_source"; "content"]) actions
          = [Some (JStr "a"); Some (JStr "bad")].
Proof.
  split; [reflexivity|].
  destruct (insert_embeddings_writes_common_prefix Double.up (Double.emb [])
              "idx" Double.three_texts [JDict []; JDict []]
              (St Double.empty []) _ eq_refl)
    as [embs [actions [He [_ [Hl Hc]]]]].
  exists embs, actions.
  cbn in He. injection He as <-.
  split; [reflexivity|]. split; [reflexivity|].
  split; [exact Hl|]. rewrite Hc, Hl. reflexivity.
Defined.

Lemma refresh_only_after_bulk_witness :
  exists actions,
    [Ev (CEmbedDocuments ["a"]) false;
     Ev (CBulk [action "idx" ("a", Double.vector_of "a", JDict [])]) false;
     Ev (CRefresh "idx") false]
    = [Ev (CEmbedDocuments ["a"]) false; Ev (CBulk actions) false;
       Ev (CRefresh "idx") false].
Proof.
  apply (refresh_only_after_bulk Double.up (Double.emb []) "idx" ["a"]
           [JDict []] (St Double.empty [])).
  - reflexivity.
  - right; right; left; reflexivity.
Defined.

Lemma search_similar_keeps_sorted_response_witness :
  Sorted (fun a b => (_score b <= _score a)%Q) (hits Fixture.ordered_hits)
  /\ fst (search_similar Fixture.ordered (Double.emb []) "idx" "q" 3 "bm25"
            (St Double.empty []))
     = Return (map result_of_hit (hits Fixture.ordered_hits)).
Proof.
  assert (Hs : Sorted (fun a b => (_score b <= _score a)%Q)
                 (hits Fixture.ordered_hits)).
  { repeat constructor; simpl; unfold Qle; simpl; lia. }
  split; [exact Hs|].
  exact (search_similar_keeps_sorted_response Fixture.ordered (Double.emb [])
           "idx" "q" 3 "bm25" (St Double.empty []) _ _ _ _
           eq_refl eq_refl Hs).
Defined.

Lemma analyze_text_count_matches_tokens_witness :
  analyze_text Fixture.ordered "idx" "seoul meal" (St Double.empty [])
  = (Return (JDict [("original", JStr "seoul meal");
                    ("tokens", JList [JStr "seoul"; JStr "meal"]);
                    ("token_count", JInt 2)]),
     St Double.empty
        [Ev (CAnalyze "idx"
               (JDict [("analyzer", JStr "nori_analyzer");
                       ("text", JStr "seoul meal")])) false])
  /\ (JDict [("original", JStr "seoul meal");
             ("tokens", JList [JStr "seoul"; JStr "meal"]);
             ("token_count", JInt 2)] = JDict []
      \/ exists response w1 tokens,
           indices_analyze Fixture.ordered "idx"
             (JDict [("analyzer", JStr "nori_analyzer");
                     ("text", JStr "seoul meal")])
             (world (St Double.empty [])) = (Return response, w1)
           /\ tokens_of response = Return tokens
           /\ JDict [("original", JStr "seoul meal");
                     ("tokens", JList [JStr "seoul"; JStr "meal"]);
                     ("token_count", JInt 2)]
              = JDict [("original", JStr "seoul meal");
                       ("tokens", JList tokens);
                       ("token_count", JInt (Z.of_nat (length tokens)))]).
Proof.
  split; [reflexivity|].
  exact (analyze_text_count_matches_tokens Fixture.ordered "idx" "seoul meal"
           (St Double.empty []) _ _ eq_refl).
Defined.

Lemma analyze_text_malformed_token_witness :
  In (JDict [("position", JInt 1)])
     [JDict [("token", JStr "seoul")]; JDict [("position", JInt 1)]]
  /\ fst (analyze_text Fixture.broken "idx" "seoul meal" (St Double.empty []))
     = Return (JDict []).
Proof.
  assert (Hin : In (JDict [("position", JInt 1)])
                  [JDict [("token", JStr "seoul")];
                   JDict [("position", JInt 1)]])
    by (right; left; reflexivity).
  split; [exact Hin|].
  exact (analyze_text_malformed_token Fixture.broken "idx" "seoul meal"
           (St Double.empty []) Fixture.broken_tokens Double.empty _ _
           (Exception "KeyError") eq_refl eq_refl Hin eq_refl).
Defined.

Lemma init_success_index_ready_witness :
  Lifecycle.__init__ Double.up "idx" (St Double.empty [])
  = (Return tt,
     St (Double.mkMem ["idx"] [] [])
        [Ev CPing false; Ev (CExists "idx") false;
         Ev (CCreate "idx" settings mappings) false])
  /\ exists w1 present w2,
       ping Double.up Double.empty = (Return true, w1)
       /\ indices_exists Double.up "idx" w1 = (Return present, w2)
       /\ present = false.
Proof.
  split; [reflexivity|].
  destruct (init_success_index_ready Double.up "idx" (St Double.empty []) _
              eq_refl) as [w1 [present [w2 [Hp [Hx _]]]]].
  exists w1, present, w2. split; [exact Hp|]. split; [exact Hx|].
  cbn in Hp. injection Hp as <-. cbn in Hx. injection Hx as <- _.
  reflexivity.
Defined.

Lemma init_stops_at_failed_ping_witness :
  fst (ping Double.unreachable Double.empty) <> Return true
  /\ trace (snd (Lifecycle.__init__ Double.unreachable "idx"
                   (St Double.empty []))) = [Ev CPing false].
Proof.
  assert (H : fst (ping Double.unreachable (world (St Double.empty [])))
              <> Return true) by discriminate.
  split; [exact H|].
  exact (proj2 (init_stops_at_failed_ping Double.unreachable "idx"
                  (St Double.empty []) H)).
Defined.

Lemma setup_index_raises_backend_exception_witness :
  _setup_index Double.unreachable "idx" (St Double.empty [])
  = (Raise (Exception "ConnectionError"),
     St Double.empty [Ev (CExists "idx") true])
  /\ ((exists w1,
         indices_exists Double.unreachable "idx" Double.empty
         = (Raise (Exception "ConnectionError"), w1))
      \/ (exists w1 w2,
            indices_exists Double.unreachable "idx" Double.empty
            = (Return false, w1)
            /\ indices_create Double.unreachable "idx" settings mappings w1
               = (Raise (Exception "ConnectionError"), w2))).
Proof.
  split; [reflexivity|].
  exact (setup_index_raises_backend_exception Double.unreachable "idx"
           (St Double.empty []) _ _ eq_refl).
Defined.

Lemma routes_raise_only_http_500_witness :
  Routes.add_document (Reference.es Sample.relevance) Fixture.docs_down
    Fixture.python_doc (St Sample.docs [])
  = (Raise (HTTPException 500 "add failed: ConnectionError"),
     St Sample.docs [])
  /\ exists detail,
       HTTPException 500 "add failed: ConnectionError"
       = HTTPException 500 detail.
Proof.
  split; [reflexivity|].
  exact (proj1 (proj2 (routes_raise_only_http_500
                         (Reference.es Sample.relevance) Fixture.docs_down
                         (St Sample.docs []) _ _))
           Fixture.python_doc eq_refl).
Defined.

Lemma startup_event_never_raises_witness :
  Routes.startup_event Double.up (St Double.empty [])
  = (Return tt,
     St (Double.mkMem ["documents"] [] [])
        ([] ++ [Ev (CExists "documents") false;
                Ev (CCreate "documents"
                      (Routes.body_part "settings" Routes.mapping)
                      (Routes.body_part "mappings" Routes.mapping)) false]))
  /\ fst (indices_exists Double.up Main.INDEX_NAME Double.empty)
     = Return false.
Proof.
  split; [reflexivity|].
  refine (proj1 (proj2 (startup_event_never_raises Double.up
                          (St Double.empty []))
                   _ "documents"
                   (Routes.body_part "settings" Routes.mapping)
                   (Routes.body_part "mappings" Routes.mapping) false
                   eq_refl _)).
  right; left; reflexivity.
Defined.

Lemma search_documents_keeps_backend_order_witness :
  fst (Main.search_documents (Reference.es Sample.relevance)
         (Main.mkQuery "python" (Some 10) None) (St Sample.docs []))
  = Return
      (Main.mkSearchResponse 2
         [Main.mkResult "1" (JStr "Python") (JStr "a language")
            (JStr "programming") (1 + 0)%Q;
          Main.mkResult "2" (JStr "Python and SQL") (JStr "a database")
            (JStr "database") (1 + 0)%Q] 0)
  /\ exists response,
       fst (search (Reference.es Sample.relevance) Main.INDEX_NAME
              (Main.query_body (Main.mkQuery "python" (Some 10) None))
              Sample.docs) = Return response
       /\ map _id (hits response) = ["1"; "2"].
Proof.
  split; [reflexivity|].
  destruct (search_documents_keeps_backend_order
              (Reference.es Sample.relevance)
              (Main.mkQuery "python" (Some 10) None) (St Sample.docs []) _ _
              eq_refl) as [response [Hs [_ [_ [Hi _]]]]].
  exists response. split; [exact Hs|]. rewrite <- Hi. reflexivity.
Defined.

Lemma search_documents_incomplete_hit_witness :
  In (Reference.hit_of Sample.relevance
        (Main.query_body (Main.mkQuery "python" (Some 10) None))
        (Reference.mkDoc "9" [("content", JStr "no title")]))
     (hits (Reference.run_search Sample.relevance
              (Main.query_body (Main.mkQuery "python" (Some 10) None))
              Fixture.untitled))
  /\ exists detail,
       fst (Main.search_documents (Reference.es Sample.relevance)
              (Main.mkQuery "python" (Some 10) None)
              (St Fixture.untitled []))
       = Raise (HTTPException 500 detail).
Proof.
  assert (Hin : In (Reference.hit_of Sample.relevance
                      (Main.query_body (Main.mkQuery "python" (Some 10) None))
                      (Reference.mkDoc "9" [("content", JStr "no title")]))
                  (hits (Reference.run_search Sample.relevance
                           (Main.query_body
                              (Main.mkQuery "python" (Some 10) None))
                           Fixture.untitled)))
    by (right; right; left; reflexivity).
  split; [exact Hin|].
  exact (search_documents_incomplete_hit (Reference.es Sample.relevance)
           (Main.mkQuery "python" (Some 10) None) (St Fixture.untitled [])
           _ _ _ eq_refl Hin (or_introl eq_refl)).
Defined.

Lemma add_document_write_stays_witness :
  Routes.add_document (Reference.es Sample.relevance) Fixture.docs
    Fixture.python_doc (St Sample.docs [])
  = (Return (JDict [("message", JStr "document '3' added");
                    ("result", JStr "created")]),
     St (Sample.docs
         ++ [Reference.mkDoc "3"
               [("title", JStr "Python"); ("content", JStr "a language");
                ("category", JStr "programming")]])
        [Ev (CRefresh "documents") false])
  /\ world (snd (Routes.add_document (Reference.es Sample.relevance)
                   Fixture.docs Fixture.python_doc (St Sample.docs [])))
     = snd (indices_refresh (Reference.es Sample.relevance) Main.INDEX_NAME
              (Sample.docs
               ++ [Reference.mkDoc "3"
                     [("title", JStr "Python");
                      ("content", JStr "a language");
                      ("category", JStr "programming")]])).
Proof.
  split; [reflexivity|].
  exact (proj1 (add_document_write_stays (Reference.es Sample.relevance)
                  Fixture.docs Fixture.python_doc (St Sample.docs []) _ _
                  eq_refl)).
Defined.

End MoreRuns.
